(** * Verification-email handler (src/index.js)

    A shallow embedding of the Lambda handler of [src/index.js] and of the
    part of the JavaScript runtime it relies on: plain data values (what
    [JSON.parse] and the Lambda event deserialiser produce), property
    access, [ToString], [JSON.parse], exceptions, and one awaited call to
    the SES client.  The handler's effects (calls to [SES.sendEmail] and
    lines written with [console.error]) are threaded through an explicit
    world. *)

From Stdlib Require Import List NArith ZArith Ascii String Bool Lia.
Import ListNotations.

Local Open Scope list_scope.
Set Warnings "-register-all".

(* ===================================================================== *)
(** ** Strings *)
(* ===================================================================== *)

(** A JavaScript string is a sequence of UTF-16 code units. *)
Definition code_unit := N.
Definition jsstring := list code_unit.

(** The string written by an ASCII literal of the source. *)
Definition str (s : string) : jsstring :=
  map N_of_ascii (list_ascii_of_string s).
Arguments str : simpl never.

(** JSON text written with apostrophes where the text has double quotes,
    so that sample messages stay readable. *)
Definition json (s : string) : jsstring :=
  map (fun c => if N.eqb c 39 then 34%N else c) (str s).

Fixpoint str_eqb (a b : jsstring) : bool :=
  match a, b with
  | [], [] => true
  | x :: a', y :: b' => N.eqb x y && str_eqb a' b'
  | _, _ => false
  end.

(** [x] occurs in [s] as a contiguous run of code units. *)
Definition substring (x s : jsstring) : Prop :=
  exists before after, s = before ++ x ++ after.

(* ===================================================================== *)
(** ** Values, completions and the runtime *)
(* ===================================================================== *)

(** Plain data: the values [JSON.parse] builds, and [undefined].  A Number
    is kept as the decimal literal that denotes it; its binary64 value is
    not computed here.  An object is its list of own properties; a lookup
    takes the first binding of a key. *)
Inductive value : Type :=
| VUndefined
| VNull
| VBoolean (b : bool)
| VNumber (literal : jsstring)
| VString (s : jsstring)
| VArray (elements : list value)
| VObject (properties : list (jsstring * value)).

(** What a [throw] carries: the three built-in errors the handler can run
    into, or any other value (the SES client's errors). *)
Inductive error : Type :=
| TypeError
| SyntaxError
| RangeError
| ErrorValue (v : value).

(** The outcome of evaluating an expression or of an invocation. *)
Inductive completion (A : Type) : Type :=
| Normal (a : A)
| Throw (e : error).
Arguments Normal {A} a.
Arguments Throw {A} e.

Definition cbind {A B} (c : completion A) (k : A -> completion B) : completion B :=
  match c with
  | Normal a => k a
  | Throw e => Throw e
  end.

Declare Scope completion_scope.
Delimit Scope completion_scope with completion.
Notation "'let!' x ':=' c 'in' k" := (cbind c (fun x => k))
  (at level 10, x name, c at level 100, k at level 200) : completion_scope.

(** The two parts of the runtime left abstract: [Number::toString]
    composed with the reading of a decimal literal as a binary64 number
    (so that 1.0 is shown as 1 and 1e21 as 1e+21), and how many activations
    of [Array.prototype.join] nested in one another the call stack has room
    for where the handler converts a value to a string; the figure depends
    on the engine and on the size of its stack. *)
Class Runtime : Type := {
  Number_toString : jsstring -> jsstring;
  join_depth : nat
}.

Fixpoint lookup (key : jsstring) (properties : list (jsstring * value)) : option value :=
  match properties with
  | [] => None
  | (k, v) :: rest => if str_eqb key k then Some v else lookup key rest
  end.

Definition is_digit (c : code_unit) : bool := (48 <=? c)%N && (c <=? 57)%N.

Fixpoint digits_value (acc : N) (s : jsstring) : option N :=
  match s with
  | [] => Some acc
  | c :: rest => if is_digit c then digits_value (acc * 10 + (c - 48))%N rest else None
  end.

(** A property key that is an array index: a canonical decimal numeral. *)
Definition array_index (key : jsstring) : option nat :=
  match key with
  | [] => None
  | [c] => if is_digit c then Some (N.to_nat (c - 48)) else None
  | c :: _ =>
      if N.eqb c 48 then None
      else option_map N.to_nat (digits_value 0 key)
  end.

(** [v[key]] and [v.key].  Only own properties of objects, the elements of
    arrays and the code units of strings are modelled: the keys the handler
    reads (Records, 0, Sns, Message and the six payload fields) are not
    defined on any built-in prototype. *)
Definition get (v : value) (key : jsstring) : completion value :=
  match v with
  | VUndefined | VNull => Throw TypeError
  | VBoolean _ | VNumber _ => Normal VUndefined
  | VString s =>
      match array_index key with
      | Some i => match nth_error s i with
                  | Some c => Normal (VString [c])
                  | None => Normal VUndefined
                  end
      | None => Normal VUndefined
      end
  | VArray elements =>
      match array_index key with
      | Some i => Normal (nth i elements VUndefined)
      | None => Normal VUndefined
      end
  | VObject properties =>
      match lookup key properties with
      | Some x => Normal x
      | None => Normal VUndefined
      end
  end.

Section RuntimeModel.
Context {runtime : Runtime}.

Local Open Scope completion_scope.

(** [ToString] with room for [depth] nested activations of
    [Array.prototype.join].  A data object is shown by
    [Object.prototype.toString] unless an own property shadows [toString]:
    that property holds data, not a function, [valueOf] gives back the
    object, and the conversion throws a [TypeError].  An array is shown by
    [Array.prototype.join], which converts the elements from left to right,
    each array among them by a further activation; an array met when no
    room is left exhausts the stack, and the conversion throws a
    [RangeError]. *)
Fixpoint to_string_within (depth : nat) (v : value) {struct v} : completion jsstring :=
  match v with
  | VUndefined => Normal (str "undefined")
  | VNull => Normal (str "null")
  | VBoolean true => Normal (str "true")
  | VBoolean false => Normal (str "false")
  | VNumber literal => Normal (Number_toString literal)
  | VString s => Normal s
  | VArray elements =>
      match depth with
      | O => Throw RangeError
      | S depth' =>
          let element x :=
            match x with
            | VUndefined | VNull => Normal []
            | _ => to_string_within depth' x
            end in
          (fix join (l : list value) : completion jsstring :=
             match l with
             | [] => Normal []
             | x :: rest =>
                 let! s := element x in
                 match rest with
                 | [] => Normal s
                 | _ :: _ => let! r := join rest in Normal (s ++ str "," ++ r)
                 end
             end) elements
      end
  | VObject properties =>
      match lookup (str "toString") properties with
      | Some _ => Throw TypeError
      | None => Normal (str "[object Object]")
      end
  end.

(** [ToString], as the template literal applies it and as [+] does after
    [ToPrimitive], with the room the runtime has. *)
Definition to_string (v : value) : completion jsstring :=
  to_string_within join_depth v.

(** The [+] of the source: its left operand is always a string. *)
Definition plus (left : jsstring) (right : value) : completion jsstring :=
  let! r := to_string right in Normal (left ++ r).

End RuntimeModel.

(* ===================================================================== *)
(** ** JSON.parse *)
(* ===================================================================== *)

Definition ch (c : ascii) : code_unit := N_of_ascii c.
Arguments ch : simpl never.
Definition quote : code_unit := 34%N.
Definition backslash : code_unit := 92%N.

(** JSON white space: tab, line feed, carriage return, space. *)
Definition is_ws (c : code_unit) : bool :=
  N.eqb c 9 || N.eqb c 10 || N.eqb c 13 || N.eqb c 32.

Fixpoint skip_ws (s : jsstring) : jsstring :=
  match s with
  | c :: rest => if is_ws c then skip_ws rest else s
  | [] => []
  end.

Definition hex_value (c : code_unit) : option N :=
  if is_digit c then Some (c - 48)%N
  else if (97 <=? c)%N && (c <=? 102)%N then Some (c - 87)%N
  else if (65 <=? c)%N && (c <=? 70)%N then Some (c - 55)%N
  else None.

Definition hex4 (a b c d : code_unit) : option code_unit :=
  match hex_value a, hex_value b, hex_value c, hex_value d with
  | Some x, Some y, Some z, Some w => Some (((x * 16 + y) * 16 + z) * 16 + w)%N
  | _, _, _, _ => None
  end.

(** The code unit a one-letter escape stands for. *)
Definition escape (c : code_unit) : option code_unit :=
  if N.eqb c quote then Some quote
  else if N.eqb c backslash then Some backslash
  else if N.eqb c (ch "/") then Some (ch "/")
  else if N.eqb c (ch "b") then Some 8%N
  else if N.eqb c (ch "f") then Some 12%N
  else if N.eqb c (ch "n") then Some 10%N
  else if N.eqb c (ch "r") then Some 13%N
  else if N.eqb c (ch "t") then Some 9%N
  else None.

(** The characters of a string after its opening quote, up to and without
    the closing one, and what follows it. *)
Fixpoint string_chars (s : jsstring) : option (jsstring * jsstring) :=
  match s with
  | [] => None
  | c :: rest =>
      if N.eqb c quote then Some ([], rest)
      else if N.eqb c backslash then
        match rest with
        | [] => None
        | e :: rest1 =>
            if N.eqb e (ch "u") then
              match rest1 with
              | h1 :: h2 :: h3 :: h4 :: rest2 =>
                  match hex4 h1 h2 h3 h4, string_chars rest2 with
                  | Some u, Some (chars, after) => Some (u :: chars, after)
                  | _, _ => None
                  end
              | _ => None
              end
            else
              match escape e, string_chars rest1 with
              | Some u, Some (chars, after) => Some (u :: chars, after)
              | _, _ => None
              end
        end
      else if (c <? 32)%N then None
      else
        match string_chars rest with
        | Some (chars, after) => Some (c :: chars, after)
        | None => None
        end
  end.

Fixpoint span_digits (s : jsstring) : jsstring * jsstring :=
  match s with
  | c :: rest =>
      if is_digit c then let (ds, after) := span_digits rest in (c :: ds, after)
      else ([], s)
  | [] => ([], [])
  end.

Definition sign_part (s : jsstring) : jsstring * jsstring :=
  match s with
  | c :: rest => if N.eqb c (ch "-") then ([c], rest) else ([], s)
  | [] => ([], [])
  end.

Definition int_part (s : jsstring) : option (jsstring * jsstring) :=
  match s with
  | c :: rest =>
      if N.eqb c (ch "0") then Some ([c], rest)
      else if is_digit c then let (ds, after) := span_digits rest in Some (c :: ds, after)
      else None
  | [] => None
  end.

Definition frac_part (s : jsstring) : option (jsstring * jsstring) :=
  match s with
  | c :: rest =>
      if N.eqb c (ch ".") then
        match span_digits rest with
        | ([], _) => None
        | (ds, after) => Some (c :: ds, after)
        end
      else Some ([], s)
  | [] => Some ([], [])
  end.

Definition exp_part (s : jsstring) : option (jsstring * jsstring) :=
  match s with
  | c :: rest =>
      if N.eqb c (ch "e") || N.eqb c (ch "E") then
        let (sg, rest1) :=
          match rest with
          | d :: rest' =>
              if N.eqb d (ch "+") || N.eqb d (ch "-") then ([d], rest') else ([], rest)
          | [] => ([], [])
          end in
        match span_digits rest1 with
        | ([], _) => None
        | (ds, after) => Some (c :: sg ++ ds, after)
        end
      else Some ([], s)
  | [] => Some ([], [])
  end.

(** A JSON number: its literal and what follows it. *)
Definition number_token (s : jsstring) : option (jsstring * jsstring) :=
  let (sg, s1) := sign_part s in
  match int_part s1 with
  | None => None
  | Some (ip, s2) =>
      match frac_part s2 with
      | None => None
      | Some (fp, s3) =>
          match exp_part s3 with
          | None => None
          | Some (ep, s4) => Some (sg ++ ip ++ fp ++ ep, s4)
          end
      end
  end.

(** [s] without its prefix [word]. *)
Fixpoint expect (word s : jsstring) : option jsstring :=
  match word, s with
  | [], _ => Some s
  | w :: word', c :: rest => if N.eqb w c then expect word' rest else None
  | _ :: _, [] => None
  end.

(** [CreateDataProperty]: a repeated key keeps its place and takes the new
    value. *)
Fixpoint set_property (key : jsstring) (v : value) (properties : list (jsstring * value))
  : list (jsstring * value) :=
  match properties with
  | [] => [(key, v)]
  | (k, x) :: rest =>
      if str_eqb key k then (k, v) :: rest else (k, x) :: set_property key v rest
  end.

Inductive parsed (A : Type) : Type :=
| Parsed (a : A) (rest : jsstring)
| Invalid
| Exhausted.
Arguments Parsed {A} a rest.
Arguments Invalid {A}.
Arguments Exhausted {A}.

(** Recursive descent over the JSON grammar.  Each function is entered at
    the first character of what it reads, white space skipped; [fuel]
    bounds the number of nested calls. *)
Fixpoint parse_value (fuel : nat) (s : jsstring) {struct fuel} : parsed value :=
  match fuel with
  | O => Exhausted
  | S fuel' =>
      match s with
      | [] => Invalid
      | c :: rest =>
          if N.eqb c (ch "{") then
            match skip_ws rest with
            | [] => Invalid
            | c1 :: rest1 =>
                if N.eqb c1 (ch "}") then Parsed (VObject []) rest1
                else
                  match parse_members fuel' [] (c1 :: rest1) with
                  | Parsed properties after => Parsed (VObject properties) after
                  | Invalid => Invalid
                  | Exhausted => Exhausted
                  end
            end
          else if N.eqb c (ch "[") then
            match skip_ws rest with
            | [] => Invalid
            | c1 :: rest1 =>
                if N.eqb c1 (ch "]") then Parsed (VArray []) rest1
                else
                  match parse_elements fuel' [] (c1 :: rest1) with
                  | Parsed elements after => Parsed (VArray elements) after
                  | Invalid => Invalid
                  | Exhausted => Exhausted
                  end
            end
          else if N.eqb c quote then
            match string_chars rest with
            | Some (chars, after) => Parsed (VString chars) after
            | None => Invalid
            end
          else if N.eqb c (ch "t") then
            match expect (str "true") s with
            | Some after => Parsed (VBoolean true) after
            | None => Invalid
            end
          else if N.eqb c (ch "f") then
            match expect (str "false") s with
            | Some after => Parsed (VBoolean false) after
            | None => Invalid
            end
          else if N.eqb c (ch "n") then
            match expect (str "null") s with
            | Some after => Parsed VNull after
            | None => Invalid
            end
          else
            match number_token s with
            | Some (literal, after) => Parsed (VNumber literal) after
            | None => Invalid
            end
      end
  end

with parse_elements (fuel : nat) (acc : list value) (s : jsstring) {struct fuel}
  : parsed (list value) :=
  match fuel with
  | O => Exhausted
  | S fuel' =>
      match parse_value fuel' s with
      | Parsed v after =>
          match skip_ws after with
          | [] => Invalid
          | c :: rest =>
              if N.eqb c (ch ",") then parse_elements fuel' (acc ++ [v]) (skip_ws rest)
              else if N.eqb c (ch "]") then Parsed (acc ++ [v]) rest
              else Invalid
          end
      | Invalid => Invalid
      | Exhausted => Exhausted
      end
  end

with parse_members (fuel : nat) (acc : list (jsstring * value)) (s : jsstring) {struct fuel}
  : parsed (list (jsstring * value)) :=
  match fuel with
  | O => Exhausted
  | S fuel' =>
      match s with
      | [] => Invalid
      | c :: rest =>
          if N.eqb c quote then
            match string_chars rest with
            | None => Invalid
            | Some (key, after_key) =>
                match skip_ws after_key with
                | [] => Invalid
                | c1 :: rest1 =>
                    if N.eqb c1 (ch ":") then
                      match parse_value fuel' (skip_ws rest1) with
                      | Parsed v after =>
                          match skip_ws after with
                          | [] => Invalid
                          | c2 :: rest2 =>
                              if N.eqb c2 (ch ",") then
                                parse_members fuel' (set_property key v acc) (skip_ws rest2)
                              else if N.eqb c2 (ch "}") then
                                Parsed (set_property key v acc) rest2
                              else Invalid
                          end
                      | Invalid => Invalid
                      | Exhausted => Exhausted
                      end
                    else Invalid
                end
            end
          else Invalid
      end
  end.

(** The value a JSON text denotes, [None] when it is not JSON.  The fuel is
    enough for any text (see [parse_text_fuel]). *)
Definition parse_text (s : jsstring) : option value :=
  let s := skip_ws s in
  match parse_value (2 * List.length s + 1) s with
  | Parsed v after =>
      match skip_ws after with
      | [] => Some v
      | _ :: _ => None
      end
  | Invalid | Exhausted => None
  end.

(** [JSON.parse(text)]: the argument is converted to a string first. *)
Definition JSON_parse {runtime : Runtime} (text : value) : completion value :=
  cbind (to_string text) (fun s =>
  match parse_text s with
  | Some v => Normal v
  | None => Throw SyntaxError
  end).

(* ===================================================================== *)
(** ** The SES client, the world and the handler *)
(* ===================================================================== *)

(** The argument of [SES.sendEmail], field by field as the source builds
    it. *)
Record Content : Type := { Data : jsstring }.
Record MessageBody : Type := { Html : Content }.
Record EmailMessage : Type := { Body : MessageBody; Subject : Content }.
Record EmailDestination : Type := { ToAddresses : list value }.
Record SendEmailRequest : Type := {
  Destination : EmailDestination;
  Message : EmailMessage;
  Source : jsstring
}.

Record HandlerResult : Type := { statusCode : Z; body : jsstring }.

(** How the promise of a request settles. *)
Inductive settled : Type :=
| Fulfilled (data : value)
| Rejected (reason : error).

(** [SES.sendEmail(params)] builds a request or throws; the request's
    [promise()] sends it and gives a promise, or throws.  The client is the
    handler's one collaborator and is a parameter of the model. *)
Record AWSRequest : Type := { promise : completion settled }.
Record SESClient : Type := { sendEmail : SendEmailRequest -> completion AWSRequest }.

(** What an invocation leaves behind: the requests [SES.sendEmail] was
    called with and the values passed to [console.error], oldest first. *)
Record World : Type := {
  ses_calls : list SendEmailRequest;
  console : list error
}.

(** Computations that read and extend the world and may throw. *)
Definition M (A : Type) : Type := World -> completion A * World.

Definition ret {A} (a : A) : M A := fun w => (Normal a, w).

Definition bind {A B} (m : M A) (k : A -> M B) : M B :=
  fun w =>
    match m w with
    | (Normal a, w') => k a w'
    | (Throw e, w') => (Throw e, w')
    end.

Definition lift {A} (c : completion A) : M A := fun w => (c, w).

(** [try { block } catch (e) { handle e }]. *)
Definition try_catch {A} (block : M A) (handle : error -> M A) : M A :=
  fun w =>
    match block w with
    | (Normal a, w') => (Normal a, w')
    | (Throw e, w') => handle e w'
    end.

Declare Scope js_scope.
Delimit Scope js_scope with js.
Notation "x <- c ;; k" := (bind c (fun x => k))
  (at level 61, c at next level, right associativity) : js_scope.
Notation "c ;;; k" := (bind c (fun _ => k))
  (at level 61, right associativity) : js_scope.

Definition call_sendEmail (SES : SESClient) (params : SendEmailRequest) : M AWSRequest :=
  fun w =>
    (sendEmail SES params,
     {| ses_calls := ses_calls w ++ [params]; console := console w |}).

Definition await (p : settled) : M value :=
  match p with
  | Fulfilled data => ret data
  | Rejected reason => lift (Throw reason)
  end.

Definition console_error (e : error) : M unit :=
  fun w => (Normal tt, {| ses_calls := ses_calls w; console := console w ++ [e] |}).

(** The fixed text of the template literal of line 16 around its three
    substitutions. *)
Definition template (first_name last_name verificationLink : jsstring) : jsstring :=
  str "<html><body>Hello " ++ first_name ++ str " " ++ last_name
  ++ str ",<br> Thank you for subscribing. To use the portal verify by clicking the below link.<br><br><a href="
  ++ verificationLink
  ++ str ">Verify your account</a><br><br><br> Kind Regards,<br> <strong>Team CSYE6225!<strong></body></html>".

(** The object literal of lines 10 to 23 around the address and the
    rendered body. *)
Definition email_request (email : value) (data : jsstring) : SendEmailRequest :=
  {|
    Destination := {| ToAddresses := [email] |};
    Message := {|
      Body := {| Html := {| Data := data |} |};
      Subject := {| Data := str "Subscribe to the link to use service" |}
    |};
    Source := str "aravind@yprod.polepeddiaravind.me"
  |}.

Section Handler.
Context {runtime : Runtime}.

Local Open Scope completion_scope.

(** Line 9: the link, by [+] from left to right. *)
Definition verificationLink (email token : value) : completion jsstring :=
  let! s1 := plus (str "http://prod.polepeddiaravind.me/v1/verifyUserEmail?email=") email in
  let! s2 := plus s1 (VString (str "&token=")) in
  let! s3 := plus s2 token in
  plus s3 (VString (str "")).

(** Line 16: the template literal, its three substitutions converted from
    left to right. *)
Definition html (first_name last_name : value) (verificationLink : jsstring)
  : completion jsstring :=
  let! s1 := to_string first_name in
  let! s2 := to_string last_name in
  let! s3 := to_string (VString verificationLink) in
  Normal (template s1 s2 s3).

(** Lines 10 to 23: [params]. *)
Definition params (first_name last_name email : value) (verificationLink : jsstring)
  : completion SendEmailRequest :=
  let! data := html first_name last_name verificationLink in
  Normal (email_request email data).

Local Open Scope js_scope.

(** [exports.handler], lines 7 to 37.  The promise an [async] function
    returns is read as the invocation's completion: fulfilled is [Normal],
    rejected is [Throw]. *)
Definition handler (SES : SESClient) (event : value) : M HandlerResult :=
  Records <- lift (get event (str "Records")) ;;
  record <- lift (get Records (str "0")) ;;
  Sns <- lift (get record (str "Sns")) ;;
  message <- lift (get Sns (str "Message")) ;;
  payload <- lift (JSON_parse message) ;;
  first_name <- lift (get payload (str "first_name")) ;;
  last_name <- lift (get payload (str "last_name")) ;;
  password <- lift (get payload (str "password")) ;;
  username <- lift (get payload (str "username")) ;;
  email <- lift (get payload (str "email")) ;;
  token <- lift (get payload (str "token")) ;;
  link <- lift (verificationLink email token) ;;
  request <- lift (params first_name last_name email link) ;;
  try_catch
    (sending <- call_sendEmail SES request ;;
     pending <- lift (promise sending) ;;
     _ <- await pending ;;
     ret {| statusCode := 200; body := str "Email sent!" |})
    (fun e =>
       console_error e ;;;
       ret {| statusCode := 400; body := str "Sending failed" |}).

End Handler.

(* ===================================================================== *)
(** ** Events, payloads and collaborator outcomes *)
(* ===================================================================== *)

(** An own property of an object; nothing for any other value. *)
Definition property (key : jsstring) (v : value) : option value :=
  match v with
  | VObject properties => lookup key properties
  | _ => None
  end.

Definition string_property (key : jsstring) (v : value) : option jsstring :=
  match property key v with
  | Some (VString s) => Some s
  | _ => None
  end.

(** The registration data a notification carries. *)
Record Payload : Type := {
  first_name : jsstring;
  last_name : jsstring;
  password : jsstring;
  username : jsstring;
  email : jsstring;
  token : jsstring
}.

Definition decode_payload (v : value) : option Payload :=
  match string_property (str "first_name") v, string_property (str "last_name") v,
        string_property (str "password") v, string_property (str "username") v,
        string_property (str "email") v, string_property (str "token") v with
  | Some f, Some l, Some p, Some u, Some e, Some t =>
      Some {| first_name := f; last_name := l; password := p;
              username := u; email := e; token := t |}
  | _, _, _, _, _, _ => None
  end.

(** The message of the first record of an SNS event: the event is an
    object whose [Records] is a list of one or more records, and the first
    one is an object with an [Sns] object holding a [Message] string. *)
Definition first_message (event : value) : option jsstring :=
  match property (str "Records") event with
  | Some (VArray (record :: _)) =>
      match property (str "Sns") record with
      | Some Sns => string_property (str "Message") Sns
      | None => None
      end
  | _ => None
  end.

(** A well-formed event is one this decodes: its first message is JSON for
    an object with the six fields, each a string. *)
Definition decode_event (event : value) : option Payload :=
  match first_message event with
  | Some message =>
      match parse_text message with
      | Some v => decode_payload v
      | None => None
      end
  | None => None
  end.

Definition well_formed (event : value) : Prop :=
  exists p, decode_event event = Some p.

(** Malformed events: the record list is missing or empty, the first record
    has no notification or the notification no message, or the message is
    not JSON or is the JSON [null]. *)
Inductive malformed : value -> Prop :=
| missing_record_list event :
    property (str "Records") event = None ->
    malformed event
| empty_record_list event :
    property (str "Records") event = Some (VArray []) ->
    malformed event
| missing_notification event record rest :
    property (str "Records") event = Some (VArray (record :: rest)) ->
    property (str "Sns") record = None ->
    malformed event
| missing_message event record rest Sns :
    property (str "Records") event = Some (VArray (record :: rest)) ->
    property (str "Sns") record = Some Sns ->
    property (str "Message") Sns = None ->
    malformed event
| invalid_json event record rest Sns message :
    property (str "Records") event = Some (VArray (record :: rest)) ->
    property (str "Sns") record = Some Sns ->
    property (str "Message") Sns = Some (VString message) ->
    parse_text message = None ->
    malformed event
| null_payload event record rest Sns message :
    property (str "Records") event = Some (VArray (record :: rest)) ->
    property (str "Sns") record = Some Sns ->
    property (str "Message") Sns = Some (VString message) ->
    parse_text message = Some VNull ->
    malformed event.

(** The link and the request for a payload, in closed form. *)
Definition link_for (p : Payload) : jsstring :=
  str "http://prod.polepeddiaravind.me/v1/verifyUserEmail?email=" ++ email p
  ++ str "&token=" ++ token p.

Definition request_for (p : Payload) : SendEmailRequest :=
  email_request (VString (email p))
    (template (first_name p) (last_name p) (link_for p)).

(** What calling the client with a request comes to: the send resolves,
    the send is rejected, or [sendEmail] or [promise] throws before any
    promise exists. *)
Inductive outcome : Type :=
| Resolves (data : value)
| Rejects (reason : error)
| SetupThrows (e : error).

Definition send_outcome (SES : SESClient) (request : SendEmailRequest) : outcome :=
  match sendEmail SES request with
  | Throw e => SetupThrows e
  | Normal sending =>
      match promise sending with
      | Throw e => SetupThrows e
      | Normal (Fulfilled data) => Resolves data
      | Normal (Rejected reason) => Rejects reason
      end
  end.

Definition sent : HandlerResult := {| statusCode := 200; body := str "Email sent!" |}.
Definition failed : HandlerResult := {| statusCode := 400; body := str "Sending failed" |}.

(** The world after one more call to the client and, on failure, one more
    line on the console. *)
Definition after_send (w : World) (request : SendEmailRequest) (logged : list error) : World :=
  {| ses_calls := ses_calls w ++ [request]; console := console w ++ logged |}.

(** The [try] statement of lines 25 to 37 on its own, for a given
    request. *)
Definition send (SES : SESClient) (request : SendEmailRequest) : M HandlerResult :=
  try_catch
    (bind (call_sendEmail SES request) (fun sending =>
     bind (lift (promise sending)) (fun pending =>
     bind (await pending) (fun _ => ret sent))))
    (fun e => bind (console_error e) (fun _ => ret failed)).

(** A payload field as the handler finds it when the producer left it out
    or sent a string: nothing is found on [null] and [undefined], which have
    no properties, nor when the field holds anything but a string. *)
Inductive field : Type :=
| Missing
| Present (s : jsstring).

Definition field_of (key : jsstring) (v : value) : option field :=
  match get v key with
  | Normal VUndefined => Some Missing
  | Normal (VString s) => Some (Present s)
  | _ => None
  end.

(** How a field reads once converted to a string, and as a value. *)
Definition shown (f : field) : jsstring :=
  match f with
  | Missing => str "undefined"
  | Present s => s
  end.

Definition passed (f : field) : value :=
  match f with
  | Missing => VUndefined
  | Present s => VString s
  end.

(* ===================================================================== *)
(** ** Sample runtime, clients and events *)
(* ===================================================================== *)

(** A runtime that shows a Number by its literal, exact on literals in
    canonical form, and has room for arrays nested a thousand deep, a
    sample figure. *)
Definition literal_runtime : Runtime :=
  {| Number_toString := fun literal => literal; join_depth := 1000 |}.

(** A runtime with room for two nested arrays only. *)
Definition shallow_runtime : Runtime :=
  {| Number_toString := fun literal => literal; join_depth := 2 |}.

Definition empty_world : World := {| ses_calls := []; console := [] |}.

Definition service_error : error :=
  ErrorValue (VObject [(str "code", VString (str "MessageRejected"))]).

Definition resolving_client : SESClient :=
  {| sendEmail := fun _ =>
       Normal {| promise := Normal (Fulfilled (VObject [(str "MessageId", VString (str "0001"))])) |} |}.

Definition rejecting_client : SESClient :=
  {| sendEmail := fun _ => Normal {| promise := Normal (Rejected service_error) |} |}.

Definition setup_error : error :=
  ErrorValue (VObject [(str "code", VString (str "ConfigError"))]).

(** A client whose [sendEmail] throws before any request exists. *)
Definition throwing_client : SESClient :=
  {| sendEmail := fun _ => Throw setup_error |}.

(** An SNS event with the given records. *)
Definition sns_event (records : list value) : value :=
  VObject [(str "Records", VArray records)].

Definition sns_record (message : jsstring) : value :=
  VObject [(str "EventSource", VString (str "aws:sns"));
           (str "Sns", VObject [(str "Type", VString (str "Notification"));
                                (str "Message", VString message)])].

Definition jane : Payload :=
  {| first_name := str "Jane"; last_name := str "Doe"; password := str "secret";
     username := str "jdoe"; email := str "jane@x.com"; token := str "abc123" |}.

Definition jane_message : jsstring :=
  json "{'first_name':'Jane','last_name':'Doe','password':'secret','username':'jdoe','email':'jane@x.com','token':'abc123'}".

Definition jane_event : value := sns_event [sns_record jane_message].

(** The same registration under another user name and password. *)
Definition jane_message' : jsstring :=
  json "{'first_name':'Jane','last_name':'Doe','password':'hunter2','username':'jane','email':'jane@x.com','token':'abc123'}".

Definition jane_event' : value := sns_event [sns_record jane_message'].

Definition empty_event : value := sns_event [].
Definition garbled_event : value := sns_event [sns_record (str "first_name=Jane")].
Definition null_event : value := sns_event [sns_record (json "null")].
Definition bare_event : value := sns_event [sns_record (json "{}")].

(** Jane's notification as SNS delivers it, with the fields the handler has
    no use for, and her registration with the keys in another order, a
    numeric password and two more fields. *)
Definition full_event : value :=
  VObject [(str "Records",
            VArray [VObject [(str "EventSource", VString (str "aws:sns"));
                             (str "EventVersion", VString (str "1.0"));
                             (str "Sns",
                              VObject [(str "Subject", VNull);
                                       (str "Message", VString jane_message);
                                       (str "Timestamp", VString (str "2022-04-01T00:00:00.000Z"))])]]);
           (str "requestId", VString (str "42"))].

Definition reordered_event : value :=
  sns_event [sns_record
    (json "{'token':'abc123','plan':'free','email':'jane@x.com','password':12345,'last_name':'Doe','first_name':'Jane','tags':[]}")].

(** A notification that carries a subject and no message. *)
Definition unaddressed_event : value :=
  sns_event [VObject [(str "Sns", VObject [(str "Subject", VString (str "hello"))])]].

(** A registration whose email is a string inside three arrays. *)
Definition nested_event : value :=
  sns_event [sns_record
    (json "{'first_name':'Jane','last_name':'Doe','email':[[['jane@x.com']]],'token':'abc123'}")].

(** A registration whose email is an object with a property named
    toString. *)
Definition shadowed_event : value :=
  sns_event [sns_record
    (json "{'first_name':'Jane','last_name':'Doe','email':{'toString':'x'},'token':'abc123'}")].

(* ===================================================================== *)
(** ** The runtime on a few inputs *)
(* ===================================================================== *)

Example parse_object :
  parse_text (json " { 'email' : 'a@b.c' , 'tags' : [ true , null , -1.5e3 ] } ") =
  Some (VObject [(str "email", VString (str "a@b.c"));
                 (str "tags", VArray [VBoolean true; VNull; VNumber (str "-1.5e3")])]).
Proof. vm_compute. reflexivity. Qed.

Example parse_repeated_key :
  parse_text (json "{'a':'x','b':'y','a':'z'}") =
  Some (VObject [(str "a", VString (str "z")); (str "b", VString (str "y"))]).
Proof. vm_compute. reflexivity. Qed.

Example parse_escapes :
  parse_text (json "'A\/\n\u0041\u00e9\uD83D'") =
  Some (VString [65; 47; 10; 65; 233; 55357]%N).
Proof. vm_compute. reflexivity. Qed.

Example parse_rejects :
  map parse_text
    [json ""; json "[1,]"; json "{'a':1,}"; json "01"; json "1."; json "-";
     json "{a:1}"; json "nul"; json "true false"; json "'\x'"; json "undefined"]
  = repeat None 11.
Proof. vm_compute. reflexivity. Qed.

Example to_string_of_array :
  to_string (runtime := literal_runtime)
    (VArray [VNull; VString (str "a"); VArray [VUndefined; VBoolean true]; VObject []])
  = Normal (str ",a,,true,[object Object]").
Proof. vm_compute. reflexivity. Qed.

Example to_string_of_shadowed_toString :
  to_string (runtime := literal_runtime)
    (VObject [(str "toString", VString (str "x"))])
  = Throw TypeError.
Proof. reflexivity. Qed.

Example to_string_of_nested_arrays :
  (to_string (runtime := shallow_runtime)
     (VArray [VArray [VString (str "a"); VNull]; VString (str "b")])
   = Normal (str "a,,b")) /\
  (to_string (runtime := shallow_runtime)
     (VArray [VObject [(str "toString", VNull)]; VArray [VArray []]])
   = Throw TypeError) /\
  (to_string (runtime := shallow_runtime)
     (VArray [VArray [VArray []]; VObject [(str "toString", VNull)]])
   = Throw RangeError).
Proof. repeat split. Qed.

Example handler_on_nested_email :
  (handler (runtime := shallow_runtime) resolving_client nested_event empty_world
   = (Throw RangeError, empty_world)) /\
  (handler (runtime := shallow_runtime) resolving_client shadowed_event empty_world
   = (Throw TypeError, empty_world)) /\
  (map (fun request => ToAddresses (Destination request))
     (ses_calls (snd (handler (runtime := literal_runtime) resolving_client nested_event
                        empty_world)))
   = [[VArray [VArray [VArray [VString (str "jane@x.com")]]]]]).
Proof. repeat split; vm_compute; reflexivity. Qed.

Example get_of_string :
  get (VString (str "abc")) (str "0") = Normal (VString (str "a")) /\
  get (VString (str "abc")) (str "Sns") = Normal VUndefined /\
  get (VArray []) (str "0") = Normal VUndefined /\
  get VUndefined (str "Sns") = Throw TypeError.
Proof. repeat split. Qed.

(* ===================================================================== *)
(** ** The parser stays within its fuel *)
(* ===================================================================== *)

Lemma skip_ws_length s : List.length (skip_ws s) <= List.length s.
Proof.
  induction s as [|c s IH]; simpl; [lia|].
  destruct (is_ws c); simpl; lia.
Qed.

Lemma skip_ws_cons s c rest :
  skip_ws s = c :: rest -> List.length rest < List.length s.
Proof.
  intros H. pose proof (skip_ws_length s) as L. rewrite H in L. simpl in L. lia.
Qed.

Lemma string_chars_length s :
  forall chars rest, string_chars s = Some (chars, rest) -> List.length rest < List.length s.
Proof.
  induction s as [s IH] using (induction_ltof1 _ (@List.length code_unit)).
  unfold ltof in IH. intros chars rest.
  destruct s as [|c s1]; simpl; [discriminate|].
  destruct (N.eqb c quote).
  { intros [= _ <-]. lia. }
  destruct (N.eqb c backslash).
  - destruct s1 as [|e s2]; [discriminate|].
    destruct (N.eqb e (ch "u")).
    + destruct s2 as [|h1 [|h2 [|h3 [|h4 s3]]]]; simpl; try discriminate.
      destruct (hex4 h1 h2 h3 h4); [|discriminate].
      destruct (string_chars s3) as [[chars' rest']|] eqn:E; [|discriminate].
      intros [= _ <-]. apply IH in E; simpl in *; lia.
    + destruct (escape e); [|discriminate].
      destruct (string_chars s2) as [[chars' rest']|] eqn:E; [|discriminate].
      intros [= _ <-]. apply IH in E; simpl in *; lia.
  - destruct (c <? 32)%N; [discriminate|].
    destruct (string_chars s1) as [[chars' rest']|] eqn:E; [|discriminate].
    intros [= _ <-]. apply IH in E; simpl in *; lia.
Qed.

Lemma expect_length word :
  forall s rest, expect word s = Some rest ->
                 List.length s = List.length word + List.length rest.
Proof.
  induction word as [|w word IH]; intros s rest; simpl.
  - intros [= ->]. reflexivity.
  - destruct s as [|c s]; [discriminate|].
    destruct (N.eqb w c); [|discriminate].
    intros H. apply IH in H. simpl. lia.
Qed.

Lemma span_digits_length s :
  forall ds rest, span_digits s = (ds, rest) -> List.length rest <= List.length s.
Proof.
  induction s as [|c s IH]; intros ds rest; simpl.
  - intros [= _ <-]. simpl. lia.
  - destruct (is_digit c).
    + destruct (span_digits s) as [ds' rest'] eqn:E.
      intros [= _ <-]. specialize (IH _ _ eq_refl). lia.
    + intros [= _ <-]. simpl. lia.
Qed.

Lemma number_token_length s literal rest :
  number_token s = Some (literal, rest) -> List.length rest < List.length s.
Proof.
  unfold number_token.
  destruct (sign_part s) as [sg s1] eqn:Es.
  assert (List.length s1 <= List.length s) as L1.
  { unfold sign_part in Es. destruct s as [|c s']; [injection Es as _ <-; simpl; lia|].
    destruct (N.eqb c (ch "-")); injection Es as _ <-; simpl; lia. }
  destruct (int_part s1) as [[ip s2]|] eqn:Ei; [|discriminate].
  assert (List.length s2 < List.length s1) as L2.
  { unfold int_part in Ei. destruct s1 as [|c s']; [discriminate|].
    destruct (N.eqb c (ch "0")); [injection Ei as _ <-; simpl; lia|].
    destruct (is_digit c); [|discriminate].
    destruct (span_digits s') as [ds after] eqn:E. injection Ei as _ <-.
    apply span_digits_length in E. simpl. lia. }
  destruct (frac_part s2) as [[fp s3]|] eqn:Ef; [|discriminate].
  assert (List.length s3 <= List.length s2) as L3.
  { unfold frac_part in Ef. destruct s2 as [|c s']; [injection Ef as _ <-; simpl; lia|].
    destruct (N.eqb c (ch ".")); [|injection Ef as _ <-; simpl; lia].
    destruct (span_digits s') as [[|d ds] after] eqn:E; [discriminate|].
    injection Ef as _ <-. apply span_digits_length in E. simpl. lia. }
  destruct (exp_part s3) as [[ep s4]|] eqn:Ee; [|discriminate].
  assert (List.length s4 <= List.length s3) as L4.
  { unfold exp_part in Ee. destruct s3 as [|c s']; [injection Ee as _ <-; simpl; lia|].
    destruct (N.eqb c (ch "e") || N.eqb c (ch "E")); [|injection Ee as _ <-; simpl; lia].
    destruct (match s' with
              | [] => ([], [])
              | d :: rest' =>
                  if N.eqb d (ch "+") || N.eqb d (ch "-") then ([d], rest') else ([], s')
              end) as [sg' rest1] eqn:E1.
    assert (List.length rest1 <= List.length s') as L.
    { destruct s' as [|d rest']; [injection E1 as _ <-; simpl; lia|].
      destruct (N.eqb d (ch "+") || N.eqb d (ch "-")); injection E1 as _ <-; simpl; lia. }
    destruct (span_digits rest1) as [[|d ds] after] eqn:E; [discriminate|].
    injection Ee as _ <-. apply span_digits_length in E. simpl. lia. }
  intros [= _ <-]. lia.
Qed.

(** Whatever is parsed takes at least one character. *)
Lemma parse_lengths fuel :
  (forall s v rest, parse_value fuel s = Parsed v rest ->
                    List.length rest < List.length s) /\
  (forall acc s l rest, parse_elements fuel acc s = Parsed l rest ->
                        List.length rest < List.length s) /\
  (forall acc s l rest, parse_members fuel acc s = Parsed l rest ->
                        List.length rest < List.length s).
Proof.
  induction fuel as [|fuel (IHv & IHe & IHm)].
  { repeat split; intros; discriminate. }
  repeat split.
  - intros s v rest. cbn [parse_value parse_elements parse_members]. destruct s as [|c s1]; [discriminate|].
    destruct (N.eqb c (ch "{")).
    { destruct (skip_ws s1) as [|c1 rest1] eqn:W; [discriminate|].
      pose proof (skip_ws_length s1) as L. rewrite W in L.
      destruct (N.eqb c1 (ch "}")).
      - intros [= _ <-]. simpl in *. lia.
      - destruct (parse_members fuel [] (c1 :: rest1)) as [l after| |] eqn:E;
          try discriminate.
        intros [= _ <-]. apply IHm in E. simpl in *. lia. }
    destruct (N.eqb c (ch "[")).
    { destruct (skip_ws s1) as [|c1 rest1] eqn:W; [discriminate|].
      pose proof (skip_ws_length s1) as L. rewrite W in L.
      destruct (N.eqb c1 (ch "]")).
      - intros [= _ <-]. simpl in *. lia.
      - destruct (parse_elements fuel [] (c1 :: rest1)) as [l after| |] eqn:E;
          try discriminate.
        intros [= _ <-]. apply IHe in E. simpl in *. lia. }
    destruct (N.eqb c quote).
    { destruct (string_chars s1) as [[chars after]|] eqn:E; [|discriminate].
      intros [= _ <-]. apply string_chars_length in E. simpl. lia. }
    destruct (N.eqb c (ch "t")).
    { destruct (expect (str "true") (c :: s1)) as [after|] eqn:E; [|discriminate].
      intros [= _ <-]. apply expect_length in E. rewrite E. simpl. lia. }
    destruct (N.eqb c (ch "f")).
    { destruct (expect (str "false") (c :: s1)) as [after|] eqn:E; [|discriminate].
      intros [= _ <-]. apply expect_length in E. rewrite E. simpl. lia. }
    destruct (N.eqb c (ch "n")).
    { destruct (expect (str "null") (c :: s1)) as [after|] eqn:E; [|discriminate].
      intros [= _ <-]. apply expect_length in E. rewrite E. simpl. lia. }
    destruct (number_token (c :: s1)) as [[literal after]|] eqn:E; [|discriminate].
    intros [= _ <-]. apply number_token_length in E. exact E.
  - intros acc s l rest. cbn [parse_value parse_elements parse_members].
    destruct (parse_value fuel s) as [v after| |] eqn:E; try discriminate.
    apply IHv in E.
    destruct (skip_ws after) as [|c rest1] eqn:W; [discriminate|].
    apply skip_ws_cons in W.
    destruct (N.eqb c (ch ",")).
    + intros H. apply IHe in H. pose proof (skip_ws_length rest1). lia.
    + destruct (N.eqb c (ch "]")); [|discriminate].
      intros [= _ <-]. lia.
  - intros acc s l rest. cbn [parse_value parse_elements parse_members]. destruct s as [|c s1]; [discriminate|].
    destruct (N.eqb c quote); [|discriminate].
    destruct (string_chars s1) as [[key after_key]|] eqn:K; [|discriminate].
    apply string_chars_length in K.
    destruct (skip_ws after_key) as [|c1 rest1] eqn:W1; [discriminate|].
    apply skip_ws_cons in W1.
    destruct (N.eqb c1 (ch ":")); [|discriminate].
    destruct (parse_value fuel (skip_ws rest1)) as [v after| |] eqn:E; try discriminate.
    apply IHv in E. pose proof (skip_ws_length rest1).
    destruct (skip_ws after) as [|c2 rest2] eqn:W2; [discriminate|].
    apply skip_ws_cons in W2.
    destruct (N.eqb c2 (ch ",")).
    + intros H'. apply IHm in H'. pose proof (skip_ws_length rest2). simpl. lia.
    + destruct (N.eqb c2 (ch "}")); [|discriminate].
      intros [= _ <-]. simpl. lia.
Qed.

(** Two units of fuel per character are enough at every level of the
    descent. *)
Lemma parse_fuel fuel :
  (forall s, 2 * List.length s < fuel -> parse_value fuel s <> Exhausted) /\
  (forall acc s, 2 * List.length s + 1 < fuel -> parse_elements fuel acc s <> Exhausted) /\
  (forall acc s, 2 * List.length s + 1 < fuel -> parse_members fuel acc s <> Exhausted).
Proof.
  induction fuel as [|fuel (IHv & IHe & IHm)].
  { repeat split; intros; lia. }
  destruct (parse_lengths fuel) as (Lv & _ & _).
  repeat split.
  - intros s F. cbn [parse_value parse_elements parse_members]. destruct s as [|c s1]; [discriminate|]. simpl in F.
    destruct (N.eqb c (ch "{")).
    { destruct (skip_ws s1) as [|c1 rest1] eqn:W; [discriminate|].
      pose proof (skip_ws_length s1) as L. rewrite W in L.
      destruct (N.eqb c1 (ch "}")); [discriminate|].
      specialize (IHm [] (c1 :: rest1)).
      destruct (parse_members fuel [] (c1 :: rest1)); try discriminate.
      intros _. apply IHm; [simpl in *; lia | reflexivity]. }
    destruct (N.eqb c (ch "[")).
    { destruct (skip_ws s1) as [|c1 rest1] eqn:W; [discriminate|].
      pose proof (skip_ws_length s1) as L. rewrite W in L.
      destruct (N.eqb c1 (ch "]")); [discriminate|].
      specialize (IHe [] (c1 :: rest1)).
      destruct (parse_elements fuel [] (c1 :: rest1)); try discriminate.
      intros _. apply IHe; [simpl in *; lia | reflexivity]. }
    destruct (N.eqb c quote).
    { destruct (string_chars s1) as [[chars after]|]; discriminate. }
    destruct (N.eqb c (ch "t")).
    { destruct (expect (str "true") (c :: s1)); discriminate. }
    destruct (N.eqb c (ch "f")).
    { destruct (expect (str "false") (c :: s1)); discriminate. }
    destruct (N.eqb c (ch "n")).
    { destruct (expect (str "null") (c :: s1)); discriminate. }
    destruct (number_token (c :: s1)) as [[literal after]|]; discriminate.
  - intros acc s F. cbn [parse_value parse_elements parse_members].
    specialize (IHv s).
    destruct (parse_value fuel s) as [v after| |] eqn:E; try discriminate.
    + apply Lv in E.
      destruct (skip_ws after) as [|c rest1] eqn:W; [discriminate|].
      apply skip_ws_cons in W.
      destruct (N.eqb c (ch ",")).
      * apply IHe. pose proof (skip_ws_length rest1). lia.
      * destruct (N.eqb c (ch "]")); discriminate.
    + intros _. apply IHv; [lia | reflexivity].
  - intros acc s F. cbn [parse_value parse_elements parse_members]. destruct s as [|c s1]; [discriminate|]. simpl in F.
    destruct (N.eqb c quote); [|discriminate].
    destruct (string_chars s1) as [[key after_key]|] eqn:K; [|discriminate].
    apply string_chars_length in K.
    destruct (skip_ws after_key) as [|c1 rest1] eqn:W1; [discriminate|].
    apply skip_ws_cons in W1.
    destruct (N.eqb c1 (ch ":")); [|discriminate].
    pose proof (skip_ws_length rest1).
    specialize (IHv (skip_ws rest1)).
    destruct (parse_value fuel (skip_ws rest1)) as [v after| |] eqn:E; try discriminate.
    + apply Lv in E.
      destruct (skip_ws after) as [|c2 rest2] eqn:W2; [discriminate|].
      apply skip_ws_cons in W2.
      destruct (N.eqb c2 (ch ",")).
      * apply IHm. pose proof (skip_ws_length rest2). lia.
      * destruct (N.eqb c2 (ch "}")); discriminate.
    + intros _. apply IHv; [lia | reflexivity].
Qed.

(** [parse_text] never runs out of fuel: it reads a value or finds the text
    invalid. *)
Lemma parse_text_fuel s :
  parse_value (2 * List.length (skip_ws s) + 1) (skip_ws s) <> Exhausted.
Proof. apply parse_fuel. lia. Qed.

(* ===================================================================== *)
(** ** Running the handler *)
(* ===================================================================== *)

Lemma bind_lift_normal {A B} (a : A) (k : A -> M B) :
  bind (lift (Normal a)) k = k a.
Proof. reflexivity. Qed.

Lemma bind_lift_throw {A B} (e : error) (k : A -> M B) :
  bind (lift (Throw e)) k = lift (Throw e).
Proof. reflexivity. Qed.

Lemma get_property v key x :
  property key v = Some x -> get v key = Normal x.
Proof.
  destruct v; simpl; try discriminate.
  intros ->. reflexivity.
Qed.

Lemma get_string_property v key s :
  string_property key v = Some s -> get v key = Normal (VString s).
Proof.
  unfold string_property. intros H. apply get_property.
  destruct (property key v) as [[]|]; congruence.
Qed.

Lemma get_first_record record rest :
  get (VArray (record :: rest)) (str "0") = Normal record.
Proof. reflexivity. Qed.

(** The path to the first message, read the way the handler reads it. *)
Lemma first_message_gets event message :
  first_message event = Some message ->
  exists Records record Sns,
    get event (str "Records") = Normal Records /\
    get Records (str "0") = Normal record /\
    get record (str "Sns") = Normal Sns /\
    get Sns (str "Message") = Normal (VString message).
Proof.
  unfold first_message.
  destruct (property (str "Records") event) as [[| | | | |[|record rest]|]|] eqn:HR;
    try discriminate.
  destruct (property (str "Sns") record) as [Sns|] eqn:HS; try discriminate.
  intros HM. exists (VArray (record :: rest)), record, Sns.
  repeat split.
  - apply get_property, HR.
  - apply get_property, HS.
  - apply get_string_property, HM.
Qed.

Lemma field_of_get key v f :
  field_of key v = Some f -> get v key = Normal (passed f).
Proof.
  unfold field_of.
  destruct (get v key) as [[]|]; intros [= <-]; reflexivity.
Qed.

(** Property reads throw on [undefined] and [null] only: a value that
    gives one property gives any other. *)
Lemma get_total v key key' x :
  get v key = Normal x -> exists x', get v key' = Normal x'.
Proof.
  destruct v; simpl; try discriminate; intros _.
  - eauto.
  - eauto.
  - destruct (array_index key'); [destruct (nth_error s n)|]; eauto.
  - destruct (array_index key'); eauto.
  - destruct (lookup key' properties); eauto.
Qed.

(** Induction over values that reaches the elements of arrays and the
    values of properties. *)
Lemma value_induction (P : value -> Prop) :
  P VUndefined -> P VNull ->
  (forall b, P (VBoolean b)) ->
  (forall literal, P (VNumber literal)) ->
  (forall s, P (VString s)) ->
  (forall elements, Forall P elements -> P (VArray elements)) ->
  (forall properties, Forall (fun kv => P (snd kv)) properties -> P (VObject properties)) ->
  forall v, P v.
Proof.
  intros HU HN HB HNum HS HA HO.
  fix IH 1. intros [| | b | literal | s | elements | properties].
  - exact HU.
  - exact HN.
  - apply HB.
  - apply HNum.
  - apply HS.
  - apply HA.
    exact ((fix all (l : list value) : Forall P l :=
              match l with
              | [] => Forall_nil P
              | x :: rest => Forall_cons x (IH x) (all rest)
              end) elements).
  - apply HO.
    exact ((fix all (l : list (jsstring * value)) : Forall (fun kv => P (snd kv)) l :=
              match l with
              | [] => Forall_nil _
              | kv :: rest => Forall_cons kv (IH (snd kv)) (all rest)
              end) properties).
Qed.

Lemma get_throws v key e : get v key = Throw e -> e = TypeError.
Proof.
  destruct v; simpl; try discriminate; try congruence.
  - destruct (array_index key); [destruct (nth_error s n)|]; discriminate.
  - destruct (array_index key); discriminate.
  - destruct (lookup key properties); discriminate.
Qed.

(** Up to its first occurrence of a separator, a string splits in one way
    only. *)
Lemma split_at_first (x : code_unit) a a' b b' :
  ~ In x a -> ~ In x a' ->
  a ++ x :: b = a' ++ x :: b' ->
  a = a' /\ b = b'.
Proof.
  revert a'. induction a as [|c a IH]; intros [|c' a'] Ha Ha' H; simpl in *.
  - injection H as <-. auto.
  - injection H as -> _. exfalso. apply Ha'. left. reflexivity.
  - injection H as -> _. exfalso. apply Ha. left. reflexivity.
  - injection H as -> H.
    destruct (IH a') as [-> ->]; auto.
Qed.

Section Properties.
Context {runtime : Runtime}.

Lemma JSON_parse_string message :
  JSON_parse (VString message) =
  match parse_text message with
  | Some v => Normal v
  | None => Throw SyntaxError
  end.
Proof. reflexivity. Qed.

Lemma verificationLink_strings e t :
  verificationLink (VString e) (VString t) =
  Normal (str "http://prod.polepeddiaravind.me/v1/verifyUserEmail?email=" ++ e
          ++ str "&token=" ++ t).
Proof.
  unfold verificationLink, plus, to_string. simpl to_string_within. unfold cbind.
  rewrite app_nil_r, <- !app_assoc. reflexivity.
Qed.

Lemma params_strings f l e link :
  params (VString f) (VString l) (VString e) link =
  Normal (email_request (VString e) (template f l link)).
Proof. reflexivity. Qed.

Lemma send_by_outcome SES request w :
  send SES request w =
  match send_outcome SES request with
  | Resolves _ => (Normal sent, after_send w request [])
  | Rejects e | SetupThrows e => (Normal failed, after_send w request [e])
  end.
Proof.
  unfold send, send_outcome, try_catch, bind, call_sendEmail, lift, await,
    console_error, ret, after_send.
  destruct (sendEmail SES request) as [sending|e]; simpl.
  - destruct (promise sending) as [[data|reason]|e]; simpl;
      rewrite ?app_nil_r; reflexivity.
  - reflexivity.
Qed.

(** A well-formed event takes the handler to the [try] statement with the
    request of its payload. *)
Lemma handler_well_formed SES event p :
  decode_event event = Some p ->
  handler SES event = send SES (request_for p).
Proof.
  unfold decode_event.
  destruct (first_message event) as [message|] eqn:Hm; [|discriminate].
  destruct (parse_text message) as [v|] eqn:HP; [|discriminate].
  destruct (first_message_gets event message Hm)
    as (Records & record & Sns & G1 & G2 & G3 & G4).
  unfold decode_payload.
  destruct (string_property (str "first_name") v) as [f|] eqn:Hf; try discriminate.
  destruct (string_property (str "last_name") v) as [l|] eqn:Hl; try discriminate.
  destruct (string_property (str "password") v) as [pw|] eqn:Hp; try discriminate.
  destruct (string_property (str "username") v) as [u|] eqn:Hu; try discriminate.
  destruct (string_property (str "email") v) as [e|] eqn:He; try discriminate.
  destruct (string_property (str "token") v) as [t|] eqn:Ht; try discriminate.
  intros [= <-].
  unfold handler.
  rewrite G1, bind_lift_normal, G2, bind_lift_normal, G3, bind_lift_normal,
    G4, bind_lift_normal.
  rewrite JSON_parse_string, HP, bind_lift_normal.
  rewrite (get_string_property _ _ _ Hf), bind_lift_normal.
  rewrite (get_string_property _ _ _ Hl), bind_lift_normal.
  rewrite (get_string_property _ _ _ Hp), bind_lift_normal.
  rewrite (get_string_property _ _ _ Hu), bind_lift_normal.
  rewrite (get_string_property _ _ _ He), bind_lift_normal.
  rewrite (get_string_property _ _ _ Ht), bind_lift_normal.
  rewrite verificationLink_strings, bind_lift_normal.
  rewrite params_strings, bind_lift_normal.
  reflexivity.
Qed.

Lemma to_string_passed f : to_string (passed f) = Normal (shown f).
Proof. destruct f; reflexivity. Qed.

Lemma verificationLink_fields e t :
  verificationLink (passed e) (passed t) =
  Normal (str "http://prod.polepeddiaravind.me/v1/verifyUserEmail?email=" ++ shown e
          ++ str "&token=" ++ shown t).
Proof.
  unfold verificationLink, plus. rewrite !to_string_passed.
  unfold to_string. simpl to_string_within.
  unfold cbind. rewrite app_nil_r, <- !app_assoc. reflexivity.
Qed.

Lemma params_fields f l e link :
  params (passed f) (passed l) (passed e) link =
  Normal (email_request (passed e) (template (shown f) (shown l) link)).
Proof.
  unfold params, html. rewrite !to_string_passed. reflexivity.
Qed.

(** Any event either stops the handler before the [try] statement, with
    the world untouched, or takes it there with one request. *)
Lemma handler_cases SES event :
  (exists e, handler SES event = lift (Throw e)) \/
  (exists request, handler SES event = send SES request).
Proof.
  unfold handler.
  repeat
    match goal with
    | |- context [bind (lift ?c) _] =>
        destruct c eqn:?;
        [ rewrite bind_lift_normal
        | left; eexists; rewrite bind_lift_throw; reflexivity ]
    end.
  right. eexists. reflexivity.
Qed.

(** Reading a property that is not there, off any value: a [TypeError] on
    [undefined] and [null], [undefined] otherwise. *)
Lemma get_absent v key :
  array_index key = None ->
  property key v = None ->
  get v key = Throw TypeError \/ get v key = Normal VUndefined.
Proof.
  intros Hk Hp. destruct v; simpl in *; rewrite ?Hk, ?Hp; auto.
Qed.

Lemma handler_throws_on_malformed SES event :
  malformed event -> exists e, handler SES event = lift (Throw e).
Proof.
  intros H. unfold handler.
  destruct H as
    [event HR | event HR | event record rest HR HS | event record rest Sns HR HS HM
    | event record rest Sns message HR HS HM HP
    | event record rest Sns message HR HS HM HP].
  - destruct (get_absent event (str "Records") eq_refl HR) as [-> | ->].
    + eexists. reflexivity.
    + eexists. reflexivity.
  - rewrite (get_property _ _ _ HR). eexists. reflexivity.
  - rewrite (get_property _ _ _ HR), bind_lift_normal, get_first_record, bind_lift_normal.
    destruct (get_absent record (str "Sns") eq_refl HS) as [-> | ->];
      eexists; reflexivity.
  - rewrite (get_property _ _ _ HR), bind_lift_normal, get_first_record, bind_lift_normal.
    rewrite (get_property _ _ _ HS), bind_lift_normal.
    destruct (get_absent Sns (str "Message") eq_refl HM) as [-> | ->];
      eexists; reflexivity.
  - rewrite (get_property _ _ _ HR), bind_lift_normal, get_first_record, bind_lift_normal.
    rewrite (get_property _ _ _ HS), bind_lift_normal.
    rewrite (get_property _ _ _ HM), bind_lift_normal.
    rewrite JSON_parse_string, HP. eexists. reflexivity.
  - rewrite (get_property _ _ _ HR), bind_lift_normal, get_first_record, bind_lift_normal.
    rewrite (get_property _ _ _ HS), bind_lift_normal.
    rewrite (get_property _ _ _ HM), bind_lift_normal.
    rewrite JSON_parse_string, HP, bind_lift_normal. eexists. reflexivity.
Qed.

Lemma substring_middle before x after : substring x (before ++ x ++ after).
Proof. exists before, after. reflexivity. Qed.

Lemma template_holds_first_name f l link : substring f (template f l link).
Proof. unfold template. apply substring_middle. Qed.

Lemma template_holds_last_name f l link : substring l (template f l link).
Proof.
  unfold template.
  exists (str "<html><body>Hello " ++ f ++ str " "). eexists.
  rewrite <- !app_assoc. reflexivity.
Qed.

Lemma template_holds_link f l link : substring link (template f l link).
Proof.
  unfold template.
  exists (str "<html><body>Hello " ++ f ++ str " " ++ l
          ++ str ",<br> Thank you for subscribing. To use the portal verify by clicking the below link.<br><br><a href=").
  eexists. rewrite <- !app_assoc. reflexivity.
Qed.

(** The two classes of events are apart: no event is both well-formed and
    malformed. *)
Lemma well_formed_not_malformed event :
  well_formed event -> ~ malformed event.
Proof.
  intros [p Hwf] Hmal.
  pose (SES := {| sendEmail := fun _ => Throw TypeError |}).
  pose (w := {| ses_calls := []; console := [] |}).
  destruct (handler_throws_on_malformed SES event Hmal) as [e He].
  pose proof (handler_well_formed SES event p Hwf) as Hs.
  rewrite He in Hs.
  apply (f_equal (fun m => fst (m w))) in Hs.
  rewrite send_by_outcome in Hs.
  destruct (send_outcome SES (request_for p)); discriminate.
Qed.

(* ===================================================================== *)
(** ** The handler's contract *)
(* ===================================================================== *)

(** C1. For a well-formed event, when the send resolves the handler returns
    status 200 with body Email sent!, and the client has been called once
    more, with a request whose destination is the payload's email. *)
Theorem handler_success SES event p w data :
  decode_event event = Some p ->
  send_outcome SES (request_for p) = Resolves data ->
  handler SES event w =
    (Normal {| statusCode := 200; body := str "Email sent!" |},
     {| ses_calls := ses_calls w ++ [request_for p]; console := console w |})
  /\ ToAddresses (Destination (request_for p)) = [VString (email p)].
Proof.
  intros Hwf Hout. split; [|reflexivity].
  rewrite (handler_well_formed SES event p Hwf), send_by_outcome, Hout.
  unfold after_send. rewrite app_nil_r. reflexivity.
Qed.

(** C2. For a well-formed event, when the send is rejected, with whatever
    reason, the handler catches it: the invocation completes normally with
    status 400 and body Sending failed, after one call to the client and
    one line on the console. *)
Theorem handler_rejection SES event p w reason :
  decode_event event = Some p ->
  send_outcome SES (request_for p) = Rejects reason ->
  handler SES event w =
    (Normal {| statusCode := 400; body := str "Sending failed" |},
     {| ses_calls := ses_calls w ++ [request_for p];
        console := console w ++ [reason] |}).
Proof.
  intros Hwf Hout.
  rewrite (handler_well_formed SES event p Hwf), send_by_outcome, Hout.
  reflexivity.
Qed.

(** C3. On a malformed event (no record list or an empty one, no
    notification or no message in the first record, a message that is not
    JSON or is the JSON null) the invocation faults: it throws, returns no
    result, and has called nothing. *)
Theorem handler_faults_on_malformed SES event w :
  malformed event ->
  exists e, handler SES event w = (Throw e, w).
Proof.
  intros H. destruct (handler_throws_on_malformed SES event H) as [e ->].
  exists e. reflexivity.
Qed.

(** C4. For a well-formed event the link is the fixed prefix, the email,
    the text &token= and the token, concatenated as they are, and this is
    the link the body of the request carries in its anchor: the body is the
    text of line 16 with that link after href=. *)
Theorem verification_link_exact SES event p w :
  decode_event event = Some p ->
  verificationLink (VString (email p)) (VString (token p)) =
    Normal (str "http://prod.polepeddiaravind.me/v1/verifyUserEmail?email="
            ++ email p ++ str "&token=" ++ token p)
  /\ exists request,
       ses_calls (snd (handler SES event w)) = ses_calls w ++ [request] /\
       Data (Html (Body (Message request))) =
         str "<html><body>Hello " ++ first_name p ++ str " " ++ last_name p
         ++ str ",<br> Thank you for subscribing. To use the portal verify by clicking the below link.<br><br><a href="
         ++ (str "http://prod.polepeddiaravind.me/v1/verifyUserEmail?email="
             ++ email p ++ str "&token=" ++ token p)
         ++ str ">Verify your account</a><br><br><br> Kind Regards,<br> <strong>Team CSYE6225!<strong></body></html>".
Proof.
  intros Hwf. split; [apply verificationLink_strings|].
  exists (request_for p). split; [|reflexivity].
  rewrite (handler_well_formed SES event p Hwf), send_by_outcome.
  destruct (send_outcome SES (request_for p)); reflexivity.
Qed.

(** C5. For a well-formed event the HTML body of the request contains the
    first name, the last name and the link, while the subject and the
    sender are the same two constants whatever the payload. *)
Theorem email_body_and_constants SES event p w :
  decode_event event = Some p ->
  exists request,
    ses_calls (snd (handler SES event w)) = ses_calls w ++ [request] /\
    substring (first_name p) (Data (Html (Body (Message request)))) /\
    substring (last_name p) (Data (Html (Body (Message request)))) /\
    substring (link_for p) (Data (Html (Body (Message request)))) /\
    Data (Subject (Message request)) = str "Subscribe to the link to use service" /\
    Source request = str "aravind@yprod.polepeddiaravind.me".
Proof.
  intros Hwf. exists (request_for p). split.
  - rewrite (handler_well_formed SES event p Hwf), send_by_outcome.
    destruct (send_outcome SES (request_for p)); reflexivity.
  - simpl. repeat split.
    + apply template_holds_first_name.
    + apply template_holds_last_name.
    + apply template_holds_link.
Qed.

(** C6, as the code has it. The call to the client stands inside the [try]
    block, so a failure thrown while the call is set up ([sendEmail] or
    [promise] throwing) is caught like a rejection of the send: the handler
    logs it and returns status 400. *)
Theorem setup_failure_is_caught SES event w request e :
  ses_calls (snd (handler SES event w)) = ses_calls w ++ [request] ->
  send_outcome SES request = SetupThrows e ->
  handler SES event w =
    (Normal {| statusCode := 400; body := str "Sending failed" |},
     {| ses_calls := ses_calls w ++ [request]; console := console w ++ [e] |}).
Proof.
  intros Hcall Hout.
  destruct (handler_cases SES event) as [[e' H] | [request' H]]; rewrite H in *.
  - simpl in Hcall. apply (f_equal (@List.length _)) in Hcall.
    rewrite length_app in Hcall. simpl in Hcall. lia.
  - rewrite send_by_outcome in *.
    assert (request' = request) as ->.
    { destruct (send_outcome SES request'); simpl in Hcall;
        apply app_inv_head in Hcall; congruence. }
    rewrite Hout. reflexivity.
Qed.

(** X1. Faults come from the steps before the [try] statement only: an
    invocation that throws has called nothing and logged nothing. *)
Lemma fault_leaves_world SES event w e w' :
  handler SES event w = (Throw e, w') -> w' = w.
Proof.
  destruct (handler_cases SES event) as [[e' H] | [request H]]; rewrite H.
  - unfold lift. congruence.
  - rewrite send_by_outcome. destruct (send_outcome SES request); discriminate.
Qed.

(** C7. An invocation either faults before the send, calling nothing, or
    builds one request, calls the client with it exactly once and returns,
    whatever the outcome of the send; and the records after the first play
    no part. *)
Theorem one_request_per_invocation SES event w :
  ((exists e, handler SES event w = (Throw e, w)) \/
   (exists request result,
      fst (handler SES event w) = Normal result /\
      ses_calls (snd (handler SES event w)) = ses_calls w ++ [request]))
  /\ (forall event' first rest rest',
        get event (str "Records") = Normal (VArray (first :: rest)) ->
        get event' (str "Records") = Normal (VArray (first :: rest')) ->
        handler SES event' w = handler SES event w).
Proof.
  split.
  - destruct (handler_cases SES event) as [[e H] | [request H]]; rewrite H.
    + left. exists e. reflexivity.
    + right. exists request. rewrite send_by_outcome.
      destruct (send_outcome SES request); eexists; split; reflexivity.
  - intros event' first rest rest' H H'. unfold handler.
    rewrite H, H', !bind_lift_normal, !get_first_record. reflexivity.
Qed.

(** C8. A result the handler returns has status 200 or 400 and nothing
    else, each with its own fixed body string. *)
Theorem status_is_200_or_400 SES event w result w' :
  handler SES event w = (Normal result, w') ->
  (statusCode result = 200%Z /\ body result = str "Email sent!") \/
  (statusCode result = 400%Z /\ body result = str "Sending failed").
Proof.
  destruct (handler_cases SES event) as [[e H] | [request H]]; rewrite H.
  - discriminate.
  - rewrite send_by_outcome.
    destruct (send_outcome SES request); intros [= <- _]; simpl; auto.
Qed.

(** C9. Two well-formed events whose payloads agree on the first name, the
    last name, the email and the token (they may differ in user name and
    password) lead to the same request and, with the same client and world,
    to the same completion and the same effects. *)
Theorem username_password_unused SES event1 event2 p1 p2 w :
  decode_event event1 = Some p1 ->
  decode_event event2 = Some p2 ->
  first_name p1 = first_name p2 ->
  last_name p1 = last_name p2 ->
  email p1 = email p2 ->
  token p1 = token p2 ->
  request_for p1 = request_for p2 /\
  handler SES event1 w = handler SES event2 w.
Proof.
  intros H1 H2 Hf Hl He Ht.
  assert (request_for p1 = request_for p2) as Hreq.
  { unfold request_for, link_for. rewrite Hf, Hl, He, Ht. reflexivity. }
  split; [exact Hreq|].
  rewrite (handler_well_formed SES event1 p1 H1), (handler_well_formed SES event2 p2 H2), Hreq.
  reflexivity.
Qed.

(** C10, as the code has it. When the first message is JSON other than
    null in which each of first_name, last_name, email and token is absent
    or a string, the handler does not fault: an absent field reads
    undefined in the link and in the HTML body, the destination holds the
    field's value itself (the value undefined, not a string, when email is
    absent), and a result is returned after one call to the client. *)
Theorem missing_fields_read_undefined SES event message v f l e t w :
  first_message event = Some message ->
  parse_text message = Some v ->
  field_of (str "first_name") v = Some f ->
  field_of (str "last_name") v = Some l ->
  field_of (str "email") v = Some e ->
  field_of (str "token") v = Some t ->
  exists result logged request,
    handler SES event w =
      (Normal result,
       {| ses_calls := ses_calls w ++ [request];
          console := console w ++ logged |})
    /\ ToAddresses (Destination request) = [passed e]
    /\ Data (Html (Body (Message request))) =
         str "<html><body>Hello " ++ shown f ++ str " " ++ shown l
         ++ str ",<br> Thank you for subscribing. To use the portal verify by clicking the below link.<br><br><a href="
         ++ (str "http://prod.polepeddiaravind.me/v1/verifyUserEmail?email="
             ++ shown e ++ str "&token=" ++ shown t)
         ++ str ">Verify your account</a><br><br><br> Kind Regards,<br> <strong>Team CSYE6225!<strong></body></html>"
    /\ request = email_request (passed e) (Data (Html (Body (Message request))))
    /\ (result = sent \/ result = failed).
Proof.
  intros Hm Hp Hf Hl He Ht.
  destruct (first_message_gets event message Hm) as (Records & record & Sns & G1 & G2 & G3 & G4).
  destruct (get_total v (str "first_name") (str "password") (passed f) (field_of_get _ _ _ Hf))
    as [pw Gpw].
  destruct (get_total v (str "first_name") (str "username") (passed f) (field_of_get _ _ _ Hf))
    as [u Gu].
  assert (handler SES event =
          send SES (email_request (passed e)
                      (template (shown f) (shown l)
                         (str "http://prod.polepeddiaravind.me/v1/verifyUserEmail?email="
                          ++ shown e ++ str "&token=" ++ shown t)))) as ->.
  { unfold handler.
    rewrite G1, bind_lift_normal, G2, bind_lift_normal, G3, bind_lift_normal,
      G4, bind_lift_normal.
    rewrite JSON_parse_string, Hp, bind_lift_normal.
    rewrite (field_of_get _ _ _ Hf), bind_lift_normal.
    rewrite (field_of_get _ _ _ Hl), bind_lift_normal.
    rewrite Gpw, bind_lift_normal, Gu, bind_lift_normal.
    rewrite (field_of_get _ _ _ He), bind_lift_normal.
    rewrite (field_of_get _ _ _ Ht), bind_lift_normal.
    rewrite verificationLink_fields, bind_lift_normal.
    rewrite params_fields, bind_lift_normal.
    reflexivity. }
  rewrite send_by_outcome.
  destruct (send_outcome SES _) as [data|reason|e'].
  - exists sent, []. eexists. repeat split. left; reflexivity.
  - exists failed, [reason]. eexists. repeat split. right; reflexivity.
  - exists failed, [e']. eexists. repeat split. right; reflexivity.
Qed.

(* ===================================================================== *)
(** ** Beyond the contract: faults, effects and what the handler reads *)
(* ===================================================================== *)

(** [ToString] throws nothing but a [TypeError] or a [RangeError]. *)
Lemma to_string_within_throws v :
  forall depth e, to_string_within depth v = Throw e -> e = TypeError \/ e = RangeError.
Proof.
  induction v as [| | b | literal | s | elements IH | properties _]
    using value_induction; intros depth e; simpl; try discriminate.
  - destruct b; discriminate.
  - destruct depth as [|depth]; [intros [= <-]; auto|].
    induction IH as [|x rest Hx _ IHrest]; [discriminate|].
    assert (forall e', match x with
                       | VUndefined | VNull => Normal []
                       | _ => to_string_within depth x
                       end = Throw e' -> e' = TypeError \/ e' = RangeError) as Hel.
    { intros e'. destruct x; try discriminate; apply Hx. }
    destruct (match x with
              | VUndefined | VNull => Normal []
              | _ => to_string_within depth x
              end) as [sx|ex] eqn:Ex; simpl.
    + destruct rest as [|y rest']; [discriminate|].
      match goal with
      | |- cbind ?j _ = _ -> _ => destruct j as [r|er] eqn:Er; simpl
      end.
      * discriminate.
      * intros [= <-]. apply IHrest. reflexivity.
    + intros [= <-]. apply Hel. reflexivity.
  - destruct (lookup (str "toString") properties); [|discriminate].
    intros [= <-]. auto.
Qed.

Lemma to_string_throws v e :
  to_string v = Throw e -> e = TypeError \/ e = RangeError.
Proof. apply to_string_within_throws. Qed.

Lemma JSON_parse_throws text e :
  JSON_parse text = Throw e -> e = TypeError \/ e = SyntaxError \/ e = RangeError.
Proof.
  unfold JSON_parse.
  destruct (to_string text) as [s|e'] eqn:E; simpl.
  - destruct (parse_text s); [discriminate | intros [= <-]; auto].
  - intros [= <-]. destruct (to_string_throws _ _ E); auto.
Qed.

(** What a link that was built was built from. *)
Lemma verificationLink_built em tk link :
  verificationLink em tk = Normal link ->
  exists se st,
    to_string em = Normal se /\ to_string tk = Normal st /\
    link = str "http://prod.polepeddiaravind.me/v1/verifyUserEmail?email=" ++ se
           ++ str "&token=" ++ st.
Proof.
  unfold verificationLink, plus.
  destruct (to_string em) as [se|] eqn:Ee; simpl; [|discriminate].
  destruct (to_string tk) as [st|] eqn:Et; simpl; [|discriminate].
  unfold to_string. simpl to_string_within. unfold cbind.
  intros [= <-]. exists se, st. rewrite app_nil_r, <- !app_assoc. auto.
Qed.

Lemma verificationLink_throws em tk e :
  verificationLink em tk = Throw e -> e = TypeError \/ e = RangeError.
Proof.
  unfold verificationLink, plus.
  destruct (to_string em) as [se|e1] eqn:Ee; simpl.
  - destruct (to_string tk) as [st|e2] eqn:Et; simpl.
    + unfold to_string. simpl to_string_within. unfold cbind. discriminate.
    + intros [= <-]. eapply to_string_throws, Et.
  - intros [= <-]. eapply to_string_throws, Ee.
Qed.

Lemma params_built fn ln em link request :
  params fn ln em link = Normal request ->
  exists s1 s2,
    to_string fn = Normal s1 /\ to_string ln = Normal s2 /\
    request = email_request em (template s1 s2 link).
Proof.
  unfold params, html.
  destruct (to_string fn) as [s1|] eqn:E1; simpl; [|discriminate].
  destruct (to_string ln) as [s2|] eqn:E2; simpl; [|discriminate].
  intros [= <-]. eauto.
Qed.

Lemma params_throws fn ln em link e :
  params fn ln em link = Throw e -> e = TypeError \/ e = RangeError.
Proof.
  unfold params, html.
  destruct (to_string fn) as [s1|e1] eqn:E1; simpl.
  - destruct (to_string ln) as [s2|e2] eqn:E2; simpl; [discriminate|].
    intros [= <-]. eapply to_string_throws, E2.
  - intros [= <-]. eapply to_string_throws, E1.
Qed.

(** Every run of the handler: a [TypeError], [SyntaxError] or [RangeError]
    before the [try] statement, or the [try] statement on the request built
    from what the handler read off the event and the payload. *)
Lemma handler_trace SES event :
  (exists e,
     (e = TypeError \/ e = SyntaxError \/ e = RangeError) /\
     handler SES event = lift (Throw e)) \/
  (exists records record sns message payload fn ln em tk name1 name2 address tktext,
     get event (str "Records") = Normal records /\
     get records (str "0") = Normal record /\
     get record (str "Sns") = Normal sns /\
     get sns (str "Message") = Normal message /\
     JSON_parse message = Normal payload /\
     get payload (str "first_name") = Normal fn /\
     get payload (str "last_name") = Normal ln /\
     get payload (str "email") = Normal em /\
     get payload (str "token") = Normal tk /\
     to_string fn = Normal name1 /\
     to_string ln = Normal name2 /\
     to_string em = Normal address /\
     to_string tk = Normal tktext /\
     handler SES event =
       send SES (email_request em
                   (template name1 name2
                      (str "http://prod.polepeddiaravind.me/v1/verifyUserEmail?email="
                       ++ address ++ str "&token=" ++ tktext)))).
Proof.
  unfold handler.
  repeat
    match goal with
    | |- context [bind (lift ?c) _] =>
        let E := fresh "E" in
        let err := fresh "err" in
        destruct c as [?|err] eqn:E;
        [ rewrite bind_lift_normal
        | left; exists err; split;
          [ first [ left; eapply get_throws, E
                  | eapply JSON_parse_throws, E
                  | destruct (verificationLink_throws _ _ _ E); auto
                  | destruct (params_throws _ _ _ _ _ E); auto ]
          | rewrite bind_lift_throw; reflexivity ] ]
    end.
  right.
  match goal with
  | H : verificationLink _ _ = Normal _ |- _ =>
      destruct (verificationLink_built _ _ _ H) as (se & st & Hse & Hst & ->)
  end.
  match goal with
  | H : params _ _ _ _ = Normal _ |- _ =>
      destruct (params_built _ _ _ _ _ H) as (s1 & s2 & Hs1 & Hs2 & ->)
  end.
  do 9 eexists. exists s1, s2, se, st.
  repeat (split; [first [reflexivity | eassumption]|]). reflexivity.
Qed.

(** X2. The outcome of the one call decides the result and the log, for
    every event: status 200 and nothing logged exactly when the send
    resolved, status 400 and the caught error, alone, on the console
    otherwise. *)
Theorem outcome_decides_result_and_log SES event w result w' :
  handler SES event w = (Normal result, w') ->
  exists request,
    ses_calls w' = ses_calls w ++ [request] /\
    match send_outcome SES request with
    | Resolves _ => result = sent /\ console w' = console w
    | Rejects e | SetupThrows e => result = failed /\ console w' = console w ++ [e]
    end.
Proof.
  destruct (handler_cases SES event) as [[e H] | [request H]]; rewrite H.
  - discriminate.
  - rewrite send_by_outcome. intros Hrun. exists request.
    destruct (send_outcome SES request); injection Hrun as <- <-; simpl;
      rewrite ?app_nil_r; auto.
Qed.

(** X3. Of the event the handler reads the message of the first record
    and nothing else: two events with the same first message run alike,
    whatever else they and their records hold. *)
Theorem only_first_message_is_read SES event event' message :
  first_message event = Some message ->
  first_message event' = Some message ->
  handler SES event = handler SES event'.
Proof.
  intros H H'.
  destruct (first_message_gets event message H) as (R & r & S0 & G1 & G2 & G3 & G4).
  destruct (first_message_gets event' message H') as (R' & r' & S0' & G1' & G2' & G3' & G4').
  unfold handler.
  rewrite G1, G1', !bind_lift_normal, G2, G2', !bind_lift_normal,
    G3, G3', !bind_lift_normal, G4, G4', !bind_lift_normal.
  reflexivity.
Qed.

(** X4. Of the payload the handler uses the values of first_name,
    last_name, email and token and nothing else: two events whose messages
    parse to payloads that give the same for these four names run alike,
    whatever the order of the keys, the other fields, and what password and
    username hold. *)
Theorem only_four_fields_are_used SES event event' message message' v v' :
  first_message event = Some message ->
  first_message event' = Some message' ->
  parse_text message = Some v ->
  parse_text message' = Some v' ->
  get v (str "first_name") = get v' (str "first_name") ->
  get v (str "last_name") = get v' (str "last_name") ->
  get v (str "email") = get v' (str "email") ->
  get v (str "token") = get v' (str "token") ->
  handler SES event = handler SES event'.
Proof.
  intros H H' HP HP' Hf Hl He Ht.
  destruct (first_message_gets event message H) as (R & r & S0 & G1 & G2 & G3 & G4).
  destruct (first_message_gets event' message' H') as (R' & r' & S0' & G1' & G2' & G3' & G4').
  unfold handler.
  rewrite G1, G1', !bind_lift_normal, G2, G2', !bind_lift_normal,
    G3, G3', !bind_lift_normal, G4, G4', !bind_lift_normal.
  rewrite !JSON_parse_string, HP, HP', !bind_lift_normal.
  rewrite <- Hf, <- Hl, <- He, <- Ht.
  destruct (get v (str "first_name")) as [fn|e] eqn:Gf; [|reflexivity].
  symmetry in Hf.
  destruct (get_total v (str "first_name") (str "password") fn Gf) as [pw Gpw].
  destruct (get_total v (str "first_name") (str "username") fn Gf) as [un Gun].
  destruct (get_total v' (str "first_name") (str "password") fn Hf) as [pw' Gpw'].
  destruct (get_total v' (str "first_name") (str "username") fn Hf) as [un' Gun'].
  rewrite !bind_lift_normal.
  destruct (get v (str "last_name")) as [ln|e]; [|reflexivity].
  rewrite !bind_lift_normal, Gpw, Gpw', !bind_lift_normal, Gun, Gun', !bind_lift_normal.
  reflexivity.
Qed.

(** X5. When neither email holds an ampersand, the link tells the email
    and the token apart: two registrations with the same link have the
    same email and the same token. *)
Theorem link_determines_email_and_token e t e' t' link :
  ~ In (ch "&") e ->
  ~ In (ch "&") e' ->
  verificationLink (VString e) (VString t) = Normal link ->
  verificationLink (VString e') (VString t') = Normal link ->
  e = e' /\ t = t'.
Proof.
  intros He He'. rewrite !verificationLink_strings.
  intros <- H.
  apply (f_equal (fun c => match c with Normal l => l | Throw _ => [] end)) in H.
  cbv beta iota in H.
  apply app_inv_head in H.
  change (str "&token=") with ([ch "&"] ++ str "token=") in H.
  rewrite <- !app_assoc in H. cbn [app] in H.
  apply (split_at_first (ch "&")) in H; auto.
  destruct H as [-> H]. apply app_inv_head in H. auto.
Qed.

(** X6. Nothing is escaped: an email that holds the text &token= gives the
    very link of the email cut before that text, with the rest moved in
    front of the token. *)
Theorem ampersand_in_email_shifts_into_token e x t :
  verificationLink (VString (e ++ str "&token=" ++ x)) (VString t) =
  verificationLink (VString e) (VString (x ++ str "&token=" ++ t)).
Proof.
  rewrite !verificationLink_strings, <- !app_assoc. reflexivity.
Qed.

(** X7. Whatever the event, a request the handler hands to the client is
    made of what line 8 read: its one destination is the value the payload
    gives for email, as it is; its body is the text of line 16 around the
    string forms of the payload's first_name and last_name and a link that
    is the fixed prefix, the string form of that same email value, the text
    &token= and the string form of the payload's token; its subject and
    sender are the two fixed strings. *)
Theorem every_request_shape SES event w request :
  ses_calls (snd (handler SES event w)) = ses_calls w ++ [request] ->
  exists records record sns message payload fn ln em tk name1 name2 address tktext,
    get event (str "Records") = Normal records /\
    get records (str "0") = Normal record /\
    get record (str "Sns") = Normal sns /\
    get sns (str "Message") = Normal message /\
    JSON_parse message = Normal payload /\
    get payload (str "first_name") = Normal fn /\
    get payload (str "last_name") = Normal ln /\
    get payload (str "email") = Normal em /\
    get payload (str "token") = Normal tk /\
    to_string fn = Normal name1 /\
    to_string ln = Normal name2 /\
    to_string em = Normal address /\
    to_string tk = Normal tktext /\
    ToAddresses (Destination request) = [em] /\
    Data (Html (Body (Message request))) =
      str "<html><body>Hello " ++ name1 ++ str " " ++ name2
      ++ str ",<br> Thank you for subscribing. To use the portal verify by clicking the below link.<br><br><a href="
      ++ (str "http://prod.polepeddiaravind.me/v1/verifyUserEmail?email=" ++ address
          ++ str "&token=" ++ tktext)
      ++ str ">Verify your account</a><br><br><br> Kind Regards,<br> <strong>Team CSYE6225!<strong></body></html>" /\
    Data (Subject (Message request)) = str "Subscribe to the link to use service" /\
    Source request = str "aravind@yprod.polepeddiaravind.me".
Proof.
  destruct (handler_trace SES event)
    as [(e & _ & H)
       | (records & record & sns & message & payload & fn & ln & em & tk
          & name1 & name2 & address & tktext
          & G1 & G2 & G3 & G4 & GP & Gf & Gl & Ge & Gt & T1 & T2 & T3 & T4 & H)];
    rewrite H.
  - simpl. intros Hc. apply (f_equal (@List.length _)) in Hc.
    rewrite length_app in Hc. simpl in Hc. lia.
  - rewrite send_by_outcome. intros Hc.
    assert (request =
            email_request em
              (template name1 name2
                 (str "http://prod.polepeddiaravind.me/v1/verifyUserEmail?email="
                  ++ address ++ str "&token=" ++ tktext))) as ->.
    { destruct (send_outcome SES _); cbn [snd after_send ses_calls] in Hc;
        apply app_inv_head in Hc; congruence. }
    exists records, record, sns, message, payload, fn, ln, em, tk,
      name1, name2, address, tktext.
    cbn [email_request ToAddresses Destination Data Html Body Message Subject Source].
    unfold template. repeat (split; [assumption || reflexivity|]). reflexivity.
Qed.

(** X8. An invocation reads nothing of the world and only adds to it: for
    each client and event there are one completion, at most one call and at
    most one console line, the line only after a call, that the handler
    gives and appends in every world. *)
Theorem effects_are_appended SES event :
  exists completed calls logged,
    (forall w,
       handler SES event w =
         (completed,
          {| ses_calls := ses_calls w ++ calls; console := console w ++ logged |})) /\
    List.length calls <= 1 /\
    List.length logged <= List.length calls.
Proof.
  destruct (handler_cases SES event) as [[e H] | [request H]]; rewrite H.
  - exists (Throw e), [], []. split; [|simpl; lia].
    intros [calls0 console0]. unfold lift. simpl. rewrite !app_nil_r. reflexivity.
  - destruct (send_outcome SES request) as [data|reason|e] eqn:Ho.
    + exists (Normal sent), [request], []. split; [|simpl; lia].
      intros w. rewrite send_by_outcome, Ho. reflexivity.
    + exists (Normal failed), [request], [reason]. split; [|simpl; lia].
      intros w. rewrite send_by_outcome, Ho. reflexivity.
    + exists (Normal failed), [request], [e]. split; [|simpl; lia].
      intros w. rewrite send_by_outcome, Ho. reflexivity.
Qed.

(** X9. The handler faults with a [TypeError], a [SyntaxError] or a
    [RangeError] (the stack exhausted while an array nested too deep is
    converted to a string) and with nothing else: no error of the client
    ever leaves it. *)
Theorem faults_are_built_in_errors SES event w e w' :
  handler SES event w = (Throw e, w') ->
  e = TypeError \/ e = SyntaxError \/ e = RangeError.
Proof.
  destruct (handler_trace SES event) as [(e1 & He1 & H) | T].
  - rewrite H. unfold lift. intros [= <- _]. exact He1.
  - destruct T as (? & ? & ? & ? & ? & ? & ? & ? & ? & ? & ? & ? & ? & T).
    destruct T as (_ & _ & _ & _ & _ & _ & _ & _ & _ & _ & _ & _ & _ & T).
    rewrite T, send_by_outcome.
    destruct (send_outcome SES _); discriminate.
Qed.

(** X10. A field that cannot be converted to a string stops the
    invocation: when the payload gives, for first_name, last_name, email or
    token, a value on which [ToString] throws (an object with a property of
    its own named toString, an array nested deeper than the stack has room
    for), the handler faults with a [TypeError] or a [RangeError], having
    called nothing. *)
Theorem unrenderable_field_faults SES event message v key x e w :
  first_message event = Some message ->
  parse_text message = Some v ->
  In key [str "first_name"; str "last_name"; str "email"; str "token"] ->
  get v key = Normal x ->
  to_string x = Throw e ->
  exists e',
    (e' = TypeError \/ e' = RangeError) /\
    handler SES event w = (Throw e', w).
Proof.
  intros Hm HP Hkey Gx Hx.
  destruct (first_message_gets event message Hm) as (R & r & S0 & G1 & G2 & G3 & G4).
  destruct (get_total v key (str "first_name") x Gx) as [fn Gf].
  destruct (get_total v key (str "last_name") x Gx) as [ln Gl].
  destruct (get_total v key (str "password") x Gx) as [pw Gp].
  destruct (get_total v key (str "username") x Gx) as [un Gu].
  destruct (get_total v key (str "email") x Gx) as [em Ge].
  destruct (get_total v key (str "token") x Gx) as [tk Gt].
  unfold handler.
  rewrite G1, bind_lift_normal, G2, bind_lift_normal, G3, bind_lift_normal,
    G4, bind_lift_normal.
  rewrite JSON_parse_string, HP, bind_lift_normal.
  rewrite Gf, bind_lift_normal, Gl, bind_lift_normal, Gp, bind_lift_normal,
    Gu, bind_lift_normal, Ge, bind_lift_normal, Gt, bind_lift_normal.
  destruct (verificationLink em tk) as [link|e1] eqn:El.
  - rewrite bind_lift_normal.
    destruct (params fn ln em link) as [request|e2] eqn:Ep.
    + exfalso.
      destruct (verificationLink_built _ _ _ El) as (se & st & Hse & Hst & _).
      destruct (params_built _ _ _ _ _ Ep) as (s1 & s2 & Hs1 & Hs2 & _).
      simpl in Hkey.
      destruct Hkey as [<- | [<- | [<- | [<- | []]]]]; congruence.
    + exists e2. split; [exact (params_throws _ _ _ _ _ Ep) | reflexivity].
  - exists e1. split; [exact (verificationLink_throws _ _ _ El) | reflexivity].
Qed.

(** X11. Without a first record the fault is a [TypeError]: so it is when
    the event has no record list, and when the list is empty. *)
Theorem no_first_record_is_a_type_error SES event w :
  property (str "Records") event = None \/
  property (str "Records") event = Some (VArray []) ->
  handler SES event w = (Throw TypeError, w).
Proof.
  intros [HR | HR]; unfold handler.
  - destruct (get_absent event (str "Records") eq_refl HR) as [-> | ->]; reflexivity.
  - rewrite (get_property _ _ _ HR). reflexivity.
Qed.

(** X12. With a first record whose notification is an object, the fault
    is a [SyntaxError] when the message is not there, as it is when the
    message is there and is not JSON: [JSON.parse] is handed [undefined]
    and reads it as the text undefined. *)
Theorem unreadable_message_is_a_syntax_error SES event record rest properties w :
  property (str "Records") event = Some (VArray (record :: rest)) ->
  property (str "Sns") record = Some (VObject properties) ->
  lookup (str "Message") properties = None \/
  (exists message,
     lookup (str "Message") properties = Some (VString message) /\
     parse_text message = None) ->
  handler SES event w = (Throw SyntaxError, w).
Proof.
  intros HR HS HM. unfold handler.
  rewrite (get_property _ _ _ HR), bind_lift_normal, get_first_record, bind_lift_normal.
  rewrite (get_property _ _ _ HS), bind_lift_normal.
  destruct HM as [HM | (message & HM & HP)]; simpl get; rewrite HM, bind_lift_normal.
  - reflexivity.
  - rewrite JSON_parse_string, HP. reflexivity.
Qed.

End Properties.

(* ===================================================================== *)
(** ** The contract on the sample events *)
(* ===================================================================== *)

Lemma handler_success_witness :
  decode_event jane_event = Some jane /\
  handler (runtime := literal_runtime) resolving_client jane_event empty_world =
    (Normal {| statusCode := 200; body := str "Email sent!" |},
     {| ses_calls := [request_for jane]; console := [] |}) /\
  ToAddresses (Destination (request_for jane)) = [VString (str "jane@x.com")].
Proof.
  split; [vm_compute; reflexivity|].
  apply (handler_success (runtime := literal_runtime) resolving_client jane_event jane
           empty_world (VObject [(str "MessageId", VString (str "0001"))]));
    vm_compute; reflexivity.
Defined.

Lemma handler_rejection_witness :
  handler (runtime := literal_runtime) rejecting_client jane_event empty_world =
    (Normal {| statusCode := 400; body := str "Sending failed" |},
     {| ses_calls := [request_for jane]; console := [service_error] |}).
Proof.
  apply (handler_rejection (runtime := literal_runtime) rejecting_client jane_event jane
           empty_world service_error);
    vm_compute; reflexivity.
Defined.

Lemma handler_faults_on_malformed_witness :
  (exists e, handler (runtime := literal_runtime) resolving_client empty_event empty_world
             = (Throw e, empty_world)) /\
  (exists e, handler (runtime := literal_runtime) resolving_client garbled_event empty_world
             = (Throw e, empty_world)).
Proof.
  split.
  - apply (handler_faults_on_malformed (runtime := literal_runtime) resolving_client
             empty_event empty_world).
    apply empty_record_list. reflexivity.
  - apply (handler_faults_on_malformed (runtime := literal_runtime) resolving_client
             garbled_event empty_world).
    apply (invalid_json garbled_event (sns_record (str "first_name=Jane")) []
             (VObject [(str "Type", VString (str "Notification"));
                       (str "Message", VString (str "first_name=Jane"))])
             (str "first_name=Jane"));
      vm_compute; reflexivity.
Defined.

Lemma verification_link_exact_witness :
  verificationLink (runtime := literal_runtime) (VString (str "jane@x.com")) (VString (str "abc123")) =
    Normal (str "http://prod.polepeddiaravind.me/v1/verifyUserEmail?email=jane@x.com&token=abc123")
  /\ exists request,
       ses_calls (snd (handler (runtime := literal_runtime) resolving_client jane_event
                         empty_world)) = [request] /\
       Data (Html (Body (Message request))) =
         str "<html><body>Hello Jane Doe,<br> Thank you for subscribing. To use the portal verify by clicking the below link.<br><br><a href=http://prod.polepeddiaravind.me/v1/verifyUserEmail?email=jane@x.com&token=abc123>Verify your account</a><br><br><br> Kind Regards,<br> <strong>Team CSYE6225!<strong></body></html>".
Proof.
  apply (verification_link_exact (runtime := literal_runtime) resolving_client
           jane_event jane empty_world eq_refl).
Defined.

Lemma email_body_and_constants_witness :
  exists request,
    ses_calls (snd (handler (runtime := literal_runtime) resolving_client jane_event empty_world))
      = [request] /\
    substring (str "Jane") (Data (Html (Body (Message request)))) /\
    substring (str "Doe") (Data (Html (Body (Message request)))) /\
    substring (link_for jane) (Data (Html (Body (Message request)))) /\
    Data (Subject (Message request)) = str "Subscribe to the link to use service" /\
    Source request = str "aravind@yprod.polepeddiaravind.me".
Proof.
  apply (email_body_and_constants (runtime := literal_runtime) resolving_client
           jane_event jane empty_world eq_refl).
Defined.

(** C6 as stated fails: [sendEmail] throws while the call is set up, and
    the invocation completes normally with status 400 instead of
    faulting. *)
Lemma setup_failure_counterexample :
  decode_event jane_event = Some jane /\
  sendEmail throwing_client (request_for jane) = Throw setup_error /\
  handler (runtime := literal_runtime) throwing_client jane_event empty_world =
    (Normal {| statusCode := 400; body := str "Sending failed" |},
     {| ses_calls := [request_for jane]; console := [setup_error] |}).
Proof. repeat split; vm_compute; reflexivity. Qed.

Lemma setup_failure_is_caught_witness :
  handler (runtime := literal_runtime) throwing_client jane_event empty_world =
    (Normal {| statusCode := 400; body := str "Sending failed" |},
     {| ses_calls := [request_for jane]; console := [setup_error] |}).
Proof.
  apply (setup_failure_is_caught (runtime := literal_runtime) throwing_client jane_event
           empty_world (request_for jane) setup_error);
    vm_compute; reflexivity.
Defined.

Lemma one_request_per_invocation_witness :
  handler (runtime := literal_runtime) rejecting_client
    (sns_event [sns_record jane_message; sns_record jane_message'; sns_record (str "junk")])
    empty_world
  = handler (runtime := literal_runtime) rejecting_client jane_event empty_world.
Proof.
  apply (proj2 (one_request_per_invocation (runtime := literal_runtime) rejecting_client
                  jane_event empty_world)
           _ (sns_record jane_message)
           [] [sns_record jane_message'; sns_record (str "junk")]);
    reflexivity.
Defined.

Lemma status_is_200_or_400_witness :
  (statusCode sent = 200%Z /\ body sent = str "Email sent!") \/
  (statusCode sent = 400%Z /\ body sent = str "Sending failed").
Proof.
  apply (status_is_200_or_400 (runtime := literal_runtime) resolving_client jane_event
           empty_world sent
           {| ses_calls := [request_for jane]; console := [] |}).
  vm_compute; reflexivity.
Defined.

Lemma username_password_unused_witness :
  username jane <> str "jane" /\
  request_for jane =
    request_for {| first_name := str "Jane"; last_name := str "Doe";
                   password := str "hunter2"; username := str "jane";
                   email := str "jane@x.com"; token := str "abc123" |} /\
  handler (runtime := literal_runtime) rejecting_client jane_event empty_world =
  handler (runtime := literal_runtime) rejecting_client jane_event' empty_world.
Proof.
  split; [vm_compute; discriminate|].
  apply (username_password_unused (runtime := literal_runtime) rejecting_client
           jane_event jane_event' jane
           {| first_name := str "Jane"; last_name := str "Doe";
              password := str "hunter2"; username := str "jane";
              email := str "jane@x.com"; token := str "abc123" |}
           empty_world);
    vm_compute; reflexivity.
Defined.

(** C10 as stated fails twice. The message null is JSON and has none of
    the fields, and the handler faults on it; and on the message {}, the
    destination handed to the client holds the value undefined, not the
    string 'undefined'. *)
Lemma missing_fields_counterexample :
  (first_message null_event = Some (json "null") /\
   parse_text (json "null") = Some VNull /\
   handler (runtime := literal_runtime) resolving_client null_event empty_world
     = (Throw TypeError, empty_world)) /\
  (first_message bare_event = Some (json "{}") /\
   parse_text (json "{}") = Some (VObject []) /\
   map (fun request => ToAddresses (Destination request))
     (ses_calls (snd (handler (runtime := literal_runtime) resolving_client bare_event
                        empty_world)))
     = [[VUndefined]] /\
   [VUndefined] <> [VString (str "undefined")]).
Proof.
  repeat split; try (vm_compute; reflexivity).
  discriminate.
Qed.

Lemma missing_fields_read_undefined_witness :
  exists result logged request,
    handler (runtime := literal_runtime) resolving_client
      (sns_event [sns_record (json "{'first_name':'Jane','token':'abc123'}")]) empty_world =
      (Normal result,
       {| ses_calls := [] ++ [request]; console := [] ++ logged |})
    /\ ToAddresses (Destination request) = [VUndefined]
    /\ Data (Html (Body (Message request))) =
         str "<html><body>Hello " ++ str "Jane" ++ str " " ++ str "undefined"
         ++ str ",<br> Thank you for subscribing. To use the portal verify by clicking the below link.<br><br><a href="
         ++ (str "http://prod.polepeddiaravind.me/v1/verifyUserEmail?email="
             ++ str "undefined" ++ str "&token=" ++ str "abc123")
         ++ str ">Verify your account</a><br><br><br> Kind Regards,<br> <strong>Team CSYE6225!<strong></body></html>"
    /\ request = email_request VUndefined (Data (Html (Body (Message request))))
    /\ (result = sent \/ result = failed).
Proof.
  apply (missing_fields_read_undefined (runtime := literal_runtime) resolving_client
           (sns_event [sns_record (json "{'first_name':'Jane','token':'abc123'}")])
           (json "{'first_name':'Jane','token':'abc123'}")
           (VObject [(str "first_name", VString (str "Jane")); (str "token", VString (str "abc123"))])
           (Present (str "Jane")) Missing Missing (Present (str "abc123")) empty_world);
    vm_compute; reflexivity.
Defined.

(* ===================================================================== *)
(** ** The further properties on the sample events *)
(* ===================================================================== *)

Lemma fault_leaves_world_witness :
  snd (handler (runtime := literal_runtime) rejecting_client garbled_event empty_world)
  = empty_world.
Proof.
  apply (fault_leaves_world (runtime := literal_runtime) rejecting_client garbled_event
           empty_world SyntaxError).
  vm_compute. reflexivity.
Defined.

Lemma outcome_decides_result_and_log_witness :
  exists request,
    ses_calls {| ses_calls := [request_for jane]; console := [service_error] |}
      = ses_calls empty_world ++ [request] /\
    match send_outcome rejecting_client request with
    | Resolves _ =>
        failed = sent /\
        console {| ses_calls := [request_for jane]; console := [service_error] |}
          = console empty_world
    | Rejects e | SetupThrows e =>
        failed = failed /\
        console {| ses_calls := [request_for jane]; console := [service_error] |}
          = console empty_world ++ [e]
    end.
Proof.
  apply (outcome_decides_result_and_log (runtime := literal_runtime) rejecting_client
           jane_event empty_world failed
           {| ses_calls := [request_for jane]; console := [service_error] |}).
  vm_compute. reflexivity.
Defined.

Lemma only_first_message_is_read_witness :
  handler (runtime := literal_runtime) resolving_client full_event
  = handler (runtime := literal_runtime) resolving_client jane_event.
Proof.
  apply (only_first_message_is_read (runtime := literal_runtime) resolving_client
           full_event jane_event jane_message);
    vm_compute; reflexivity.
Defined.

Lemma only_four_fields_are_used_witness :
  handler (runtime := literal_runtime) rejecting_client reordered_event
  = handler (runtime := literal_runtime) rejecting_client jane_event.
Proof.
  apply (only_four_fields_are_used (runtime := literal_runtime) rejecting_client
           reordered_event jane_event
           (json "{'token':'abc123','plan':'free','email':'jane@x.com','password':12345,'last_name':'Doe','first_name':'Jane','tags':[]}")
           jane_message
           (VObject [(str "token", VString (str "abc123"));
                     (str "plan", VString (str "free"));
                     (str "email", VString (str "jane@x.com"));
                     (str "password", VNumber (str "12345"));
                     (str "last_name", VString (str "Doe"));
                     (str "first_name", VString (str "Jane"));
                     (str "tags", VArray [])])
           (VObject [(str "first_name", VString (str "Jane"));
                     (str "last_name", VString (str "Doe"));
                     (str "password", VString (str "secret"));
                     (str "username", VString (str "jdoe"));
                     (str "email", VString (str "jane@x.com"));
                     (str "token", VString (str "abc123"))]));
    vm_compute; reflexivity.
Defined.

Lemma link_determines_email_and_token_witness :
  str "jane@x.com" = [106; 97; 110; 101; 64; 120; 46; 99; 111; 109]%N /\
  str "abc123" = [97; 98; 99; 49; 50; 51]%N.
Proof.
  apply (link_determines_email_and_token (runtime := literal_runtime)
           (str "jane@x.com") (str "abc123")
           [106; 97; 110; 101; 64; 120; 46; 99; 111; 109]%N [97; 98; 99; 49; 50; 51]%N
           (str "http://prod.polepeddiaravind.me/v1/verifyUserEmail?email=jane@x.com&token=abc123")).
  - vm_compute. intuition discriminate.
  - vm_compute. intuition discriminate.
  - vm_compute. reflexivity.
  - vm_compute. reflexivity.
Defined.

Lemma every_request_shape_witness :
  exists records record sns message payload fn ln em tk name1 name2 address tktext,
    get jane_event (str "Records") = Normal records /\
    get records (str "0") = Normal record /\
    get record (str "Sns") = Normal sns /\
    get sns (str "Message") = Normal message /\
    JSON_parse (runtime := literal_runtime) message = Normal payload /\
    get payload (str "first_name") = Normal fn /\
    get payload (str "last_name") = Normal ln /\
    get payload (str "email") = Normal em /\
    get payload (str "token") = Normal tk /\
    to_string (runtime := literal_runtime) fn = Normal name1 /\
    to_string (runtime := literal_runtime) ln = Normal name2 /\
    to_string (runtime := literal_runtime) em = Normal address /\
    to_string (runtime := literal_runtime) tk = Normal tktext /\
    ToAddresses (Destination (request_for jane)) = [em] /\
    Data (Html (Body (Message (request_for jane)))) =
      str "<html><body>Hello " ++ name1 ++ str " " ++ name2
      ++ str ",<br> Thank you for subscribing. To use the portal verify by clicking the below link.<br><br><a href="
      ++ (str "http://prod.polepeddiaravind.me/v1/verifyUserEmail?email=" ++ address
          ++ str "&token=" ++ tktext)
      ++ str ">Verify your account</a><br><br><br> Kind Regards,<br> <strong>Team CSYE6225!<strong></body></html>" /\
    Data (Subject (Message (request_for jane))) = str "Subscribe to the link to use service" /\
    Source (request_for jane) = str "aravind@yprod.polepeddiaravind.me".
Proof.
  apply (every_request_shape (runtime := literal_runtime) resolving_client jane_event
           empty_world (request_for jane)).
  vm_compute. reflexivity.
Defined.

Lemma faults_are_built_in_errors_witness :
  SyntaxError = TypeError \/ SyntaxError = SyntaxError \/ SyntaxError = RangeError.
Proof.
  apply (faults_are_built_in_errors (runtime := literal_runtime) resolving_client
           garbled_event empty_world SyntaxError empty_world).
  vm_compute. reflexivity.
Defined.

Lemma unrenderable_field_faults_witness :
  exists e',
    (e' = TypeError \/ e' = RangeError) /\
    handler (runtime := shallow_runtime) resolving_client nested_event empty_world
    = (Throw e', empty_world).
Proof.
  apply (unrenderable_field_faults (runtime := shallow_runtime) resolving_client
           nested_event
           (json "{'first_name':'Jane','last_name':'Doe','email':[[['jane@x.com']]],'token':'abc123'}")
           (VObject [(str "first_name", VString (str "Jane"));
                     (str "last_name", VString (str "Doe"));
                     (str "email", VArray [VArray [VArray [VString (str "jane@x.com")]]]);
                     (str "token", VString (str "abc123"))])
           (str "email") (VArray [VArray [VArray [VString (str "jane@x.com")]]]) RangeError
           empty_world).
  - vm_compute. reflexivity.
  - vm_compute. reflexivity.
  - simpl. auto.
  - vm_compute. reflexivity.
  - vm_compute. reflexivity.
Defined.

Lemma no_first_record_is_a_type_error_witness :
  handler (runtime := literal_runtime) resolving_client empty_event empty_world
  = (Throw TypeError, empty_world).
Proof.
  apply (no_first_record_is_a_type_error (runtime := literal_runtime) resolving_client
           empty_event empty_world).
  right. reflexivity.
Defined.

Lemma unreadable_message_is_a_syntax_error_witness :
  handler (runtime := literal_runtime) resolving_client unaddressed_event empty_world
  = (Throw SyntaxError, empty_world).
Proof.
  apply (unreadable_message_is_a_syntax_error (runtime := literal_runtime) resolving_client
           unaddressed_event
           (VObject [(str "Sns", VObject [(str "Subject", VString (str "hello"))])]) []
           [(str "Subject", VString (str "hello"))] empty_world).
  - reflexivity.
  - reflexivity.
  - left. reflexivity.
Defined.
